(** * arc: the untracked-file relocator

    A shallow embedding of [arc/cleanup_untracked_git.py] and of the
    command dispatch of [arc/__main__.py], together with the properties
    that the specification states about them.

    The program is a straight-line script over external calls (the clock,
    two runs of git, [os.path.isfile], [os.makedirs], [shutil.move],
    [open]/[write], [print]).  Each external call is answered by a
    [World], which sees the history of the calls made so far; the program
    is a computation in a state-and-exception monad whose state is that
    history together with the console output.

    Conventions.
    - A Python [str] is a [string]; the character with code [n] stands
      for the code point [n], so the model covers text whose code points
      are below 256.
    - [exn] holds the instances of Python's [Exception] class that the
      calls of the script raise.  Interrupts delivered from outside the
      process are not part of the model.
    - [print] always succeeds. *)

From Stdlib Require Import String Ascii List Bool Arith ZArith Lia.
From Stdlib Require Import DecimalString DecimalNat.
Import ListNotations.
Local Open Scope list_scope.
Local Open Scope string_scope.

(** ** Characters and strings of the Python runtime *)

Module Py.

Definition chr (n : nat) : ascii := ascii_of_nat n.
Definition ord (c : ascii) : nat := nat_of_ascii c.

Definition LF : ascii := chr 10.
Definition CR : ascii := chr 13.
Definition TAB : ascii := chr 9.
Definition SQUOTE : ascii := chr 39.
Definition DQUOTE : ascii := chr 34.
Definition BACKSLASH : ascii := chr 92.
Definition SLASH : ascii := chr 47.

(** The one-character string ["\n"] of the source's literals. *)
Definition nl : string := String LF EmptyString.

(** [str.isspace] on one character (code points below 256). *)
Definition isspace (c : ascii) : bool :=
  let n := ord c in
  (((9 <=? n) && (n <=? 13)) || ((28 <=? n) && (n <=? 32))
   || (n =? 133) || (n =? 160))%nat.

(** The line boundaries of [str.splitlines] other than the pair CR LF. *)
Definition is_linebreak (c : ascii) : bool :=
  let n := ord c in
  (((10 <=? n) && (n <=? 13)) || ((28 <=? n) && (n <=? 30)) || (n =? 133))%nat.

(** The whitespace of [bytes.strip]. *)
Definition isspace_bytes (c : ascii) : bool :=
  let n := ord c in
  (((9 <=? n) && (n <=? 13)) || (n =? 32))%nat.

Fixpoint lstrip_with (sp : ascii -> bool) (s : string) : string :=
  match s with
  | EmptyString => EmptyString
  | String c r => if sp c then lstrip_with sp r else s
  end.

Fixpoint rstrip_with (sp : ascii -> bool) (s : string) : string :=
  match s with
  | EmptyString => EmptyString
  | String c r =>
      match rstrip_with sp r with
      | EmptyString => if sp c then EmptyString else String c EmptyString
      | r' => String c r'
      end
  end.

Definition strip_with (sp : ascii -> bool) (s : string) : string :=
  rstrip_with sp (lstrip_with sp s).

(** [str.strip()] *)
Definition strip (s : string) : string := strip_with isspace s.

(** [bytes.strip()] *)
Definition strip_bytes (s : string) : string := strip_with isspace_bytes s.

(** [str.splitlines()]: [cur] is the line read so far. *)
Fixpoint splitlines_from (cur : string) (s : string) : list string :=
  match s with
  | EmptyString =>
      match cur with
      | EmptyString => []
      | _ => [cur]
      end
  | String c r =>
      if Ascii.eqb c CR then
        match r with
        | String c' r' =>
            if Ascii.eqb c' LF then cur :: splitlines_from EmptyString r'
            else cur :: splitlines_from EmptyString r
        | EmptyString => cur :: splitlines_from EmptyString r
        end
      else if is_linebreak c then cur :: splitlines_from EmptyString r
      else splitlines_from (cur ++ String c EmptyString) r
  end.

Definition splitlines (s : string) : list string :=
  splitlines_from EmptyString s.

(** [sep.join(xs)] *)
Fixpoint str_join (sep : string) (xs : list string) : string :=
  match xs with
  | [] => EmptyString
  | [x] => x
  | x :: rest => x ++ sep ++ str_join sep rest
  end.

(** [str(n)] for a non-negative [int]. *)
Definition str_of_nat (n : nat) : string :=
  NilZero.string_of_uint (Nat.to_uint n).

Definition startswith_char (c : ascii) (s : string) : bool :=
  match s with
  | String c' _ => Ascii.eqb c' c
  | EmptyString => false
  end.

Fixpoint endswith_char (c : ascii) (s : string) : bool :=
  match s with
  | EmptyString => false
  | String c' EmptyString => Ascii.eqb c' c
  | String _ r => endswith_char c r
  end.

Fixpoint contains_char (c : ascii) (s : string) : bool :=
  match s with
  | EmptyString => false
  | String c' r => Ascii.eqb c' c || contains_char c r
  end.

Definition is_empty (s : string) : bool :=
  match s with
  | EmptyString => true
  | _ => false
  end.

(** A line is blank when it holds nothing but whitespace. *)
Fixpoint is_blank (s : string) : bool :=
  match s with
  | EmptyString => true
  | String c r => isspace c && is_blank r
  end.


Definition hexdigit (n : nat) : ascii :=
  if (n <? 10)%nat then chr (48 + n) else chr (87 + n).

(** [repr] of a [bytes] object. *)
Definition bytes_repr (s : string) : string :=
  let q := if contains_char SQUOTE s && negb (contains_char DQUOTE s)
           then DQUOTE else SQUOTE in
  let esc (c : ascii) : string :=
    let n := ord c in
    if Ascii.eqb c q || Ascii.eqb c BACKSLASH then String BACKSLASH (String c EmptyString)
    else if Ascii.eqb c TAB then String BACKSLASH "t"
    else if Ascii.eqb c LF then String BACKSLASH "n"
    else if Ascii.eqb c CR then String BACKSLASH "r"
    else if ((n <? 32) || (127 <=? n))%nat
         then String BACKSLASH (String "x" (String (hexdigit (n / 16))
                                             (String (hexdigit (n mod 16)) EmptyString)))
    else String c EmptyString in
  "b" ++ String q (String.concat EmptyString (map esc (list_ascii_of_string s)))
      ++ String q EmptyString.

(** [repr] of a list of plain words (no quote, backslash or control
    character), which is what the two git command lines are. *)
Definition words_repr (xs : list string) : string :=
  "[" ++ str_join ", " (map (fun x => String SQUOTE x ++ String SQUOTE EmptyString) xs) ++ "]".

End Py.

(** ** [posixpath] *)

Module posixpath.
Import Py.

(** [os.path.join(a, b)] *)
Definition join (a b : string) : string :=
  if startswith_char SLASH b then b
  else if is_empty a || endswith_char SLASH a then a ++ b
  else a ++ String SLASH b.

(** [p[:p.rfind('/') + 1]] *)
Fixpoint head_upto_last_sep (p : string) : string :=
  match p with
  | EmptyString => EmptyString
  | String c r =>
      if contains_char SLASH p then String c (head_upto_last_sep r)
      else EmptyString
  end.

Fixpoint all_sep (s : string) : bool :=
  match s with
  | EmptyString => true
  | String c r => Ascii.eqb c SLASH && all_sep r
  end.

(** [os.path.dirname(p)] *)
Definition dirname (p : string) : string :=
  let head := head_upto_last_sep p in
  if negb (is_empty head) && negb (all_sep head)
  then rstrip_with (fun c => Ascii.eqb c SLASH) head
  else head.

End posixpath.

(** ** [datetime] *)

Record datetime : Type := mkDatetime {
  year : nat; month : nat; day : nat;
  hour : nat; minute : nat; second : nat
}.

(** [str.zfill(width)] on the decimal digits of [n]. *)
Definition zfill (width n : nat) : string :=
  let d := Py.str_of_nat n in
  String.concat EmptyString (repeat "0" (width - String.length d)) ++ d.

(** One directive of [strftime]; the script uses these six.  [%Y] is
    the year in decimal, as the C library prints it: the digits of the
    year, which are four from the year 1000 on; the five others are
    padded to two digits. *)
Definition directive (d : ascii) (t : datetime) : string :=
  if Ascii.eqb d "Y" then Py.str_of_nat (year t)
  else if Ascii.eqb d "m" then zfill 2 (month t)
  else if Ascii.eqb d "d" then zfill 2 (day t)
  else if Ascii.eqb d "H" then zfill 2 (hour t)
  else if Ascii.eqb d "M" then zfill 2 (minute t)
  else if Ascii.eqb d "S" then zfill 2 (second t)
  else String "%" (String d EmptyString).

(** [t.strftime(fmt)] *)
Fixpoint strftime (fmt : string) (t : datetime) : string :=
  match fmt with
  | EmptyString => EmptyString
  | String c r =>
      if Ascii.eqb c "%" then
        match r with
        | String d r' => directive d t ++ strftime r' t
        | EmptyString => String c EmptyString
        end
      else String c (strftime r t)
  end.

(** ** Exceptions *)

(** The classes that the handlers of the script tell apart, below
    [subprocess.CalledProcessError]. *)
Inductive error_class : Type :=
| FileNotFoundError
| OtherException.

(** An exception raised by a library call: its class and its [str(e)]. *)
Record raised : Type := mkRaised {
  exc_class : error_class;
  exc_str : string
}.

(** What [capture_output=True] captures: [bytes], or [str] under
    [text=True]. *)
Inductive captured : Type :=
| CBytes (b : string)
| CStr (s : string).

Inductive exn : Type :=
| CalledProcessError (cmd : list string) (returncode : Z) (stderr : captured)
| Exc (r : raised).

(** [x.strip()] and [f"{x}"] on captured output. *)
Definition captured_strip (x : captured) : captured :=
  match x with
  | CBytes b => CBytes (Py.strip_bytes b)
  | CStr s => CStr (Py.strip s)
  end.

Definition captured_format (x : captured) : string :=
  match x with
  | CBytes b => Py.bytes_repr b
  | CStr s => s
  end.

(** ** The world and the history of calls *)

Inductive proc_result : Type :=
| Exited (returncode : Z) (stdout stderr : string)
| SpawnFailed (e : raised).

Inductive event : Type :=
| EvNow (t : datetime)
| EvRun (cmd : list string) (cwd : string) (r : proc_result)
| EvMakedirs (path : string) (r : option raised)
| EvMove (src dst : string) (r : option raised)
| EvWrite (path content : string) (r : option raised).

(** The calls that change the file system. *)
Definition mutates (ev : event) : bool :=
  match ev with
  | EvMakedirs _ _ | EvMove _ _ _ | EvWrite _ _ _ => true
  | EvNow _ | EvRun _ _ _ => false
  end.

(** Every answer may depend on the calls made before it.  [isfile] and
    [abspath] only read, and leave no event. *)
Record World : Type := mkWorld {
  datetime_now : list event -> datetime;
  run_process : list event -> list string -> string -> proc_result;
  isfile : list event -> string -> bool;
  abspath : list event -> string -> string;
  makedirs : list event -> string -> option raised;
  move : list event -> string -> string -> option raised;
  write_file : list event -> string -> string -> option raised;
  signal_repr : Z -> option string
}.

(** [str(e)] *)
Definition str_exn (w : World) (e : exn) : string :=
  match e with
  | Exc r => exc_str r
  | CalledProcessError cmd rc _ =>
      if (rc <? 0)%Z then
        match signal_repr w (- rc) with
        | Some sg => "Command '" ++ Py.words_repr cmd ++ "' died with " ++ sg ++ "."
        | None => "Command '" ++ Py.words_repr cmd ++ "' died with unknown signal "
                    ++ Py.str_of_nat (Z.to_nat (- rc)) ++ "."
        end
      else "Command '" ++ Py.words_repr cmd ++ "' returned non-zero exit status "
             ++ Py.str_of_nat (Z.to_nat rc) ++ "."
  end.

(** ** The monad of the script *)

Record state : Type := mkState {
  history : list event;
  console : list string
}.

Definition initial : state := mkState [] [].

Inductive outcome (A : Type) : Type :=
| Returned (a : A)
| Raised (e : exn).
Arguments Returned {A} a.
Arguments Raised {A} e.

Definition M (A : Type) : Type := state -> outcome A * state.

Definition ret {A : Type} (a : A) : M A := fun st => (Returned a, st).

Definition bind {A B : Type} (m : M A) (k : A -> M B) : M B :=
  fun st =>
    match m st with
    | (Returned a, st') => k a st'
    | (Raised e, st') => (Raised e, st')
    end.

Declare Scope py_scope.
Delimit Scope py_scope with py.
Notation "x <- m ;; k" := (bind m (fun x => k))
  (at level 61, m at next level, right associativity) : py_scope.
Notation "m ;; k" := (bind m (fun _ => k))
  (at level 61, right associativity) : py_scope.
Notation "' pat <- m ;; k" := (bind m (fun x => match x with pat => k end))
  (at level 61, pat pattern, m at next level, right associativity) : py_scope.
Local Open Scope py_scope.

Definition record (ev : event) (st : state) : state :=
  mkState (history st ++ [ev])%list (console st).

(** [print(s)] *)
Definition print (s : string) : M unit :=
  fun st => (Returned tt, mkState (history st) (console st ++ [s])%list).

(** A clause [except C as e: h]: [Some] when [e] is an instance of [C]. *)
Definition clause (A : Type) : Type := exn -> option (M A).

Fixpoint dispatch {A : Type} (clauses : list (clause A)) (e : exn) : M A :=
  match clauses with
  | [] => fun st => (Raised e, st)
  | c :: rest =>
      match c e with
      | Some h => h
      | None => dispatch rest e
      end
  end.

(** [try: body  except ...: ...], the first matching clause handles. *)
Definition try_except {A : Type} (body : M A) (clauses : list (clause A)) : M A :=
  fun st =>
    match body st with
    | (Returned a, st') => (Returned a, st')
    | (Raised e, st') => dispatch clauses e st'
    end.

Definition except_CalledProcessError {A : Type}
  (h : list string -> captured -> M A) : clause A :=
  fun e =>
    match e with
    | CalledProcessError cmd _ stderr => Some (h cmd stderr)
    | Exc _ => None
    end.

Definition except_FileNotFoundError {A : Type} (h : M A) : clause A :=
  fun e =>
    match e with
    | Exc r =>
        match exc_class r with
        | FileNotFoundError => Some h
        | OtherException => None
        end
    | CalledProcessError _ _ _ => None
    end.

Definition except_Exception {A : Type} (h : exn -> M A) : clause A :=
  fun e => Some (h e).

(** ** [arc/cleanup_untracked_git.py] *)

Section Relocator.

Variable w : World.

(** [datetime.datetime.now()] *)
Definition now : M datetime :=
  fun st =>
    let t := datetime_now w (history st) in
    (Returned t, record (EvNow t) st).

(** [subprocess.run(cmd, capture_output=True, text=text, check=True, cwd=cwd)];
    the value is the captured standard output. *)
Definition subprocess_run (cmd : list string) (text : bool) (cwd : string) : M string :=
  fun st =>
    let r := run_process w (history st) cmd cwd in
    let st' := record (EvRun cmd cwd r) st in
    match r with
    | SpawnFailed e => (Raised (Exc e), st')
    | Exited rc out err =>
        if (rc =? 0)%Z then (Returned out, st')
        else (Raised (CalledProcessError cmd rc (if text then CStr err else CBytes err)), st')
    end.

(** [os.path.isfile(path)] *)
Definition os_path_isfile (path : string) : M bool :=
  fun st => (Returned (isfile w (history st) path), st).

(** [os.path.abspath(path)] *)
Definition os_path_abspath (path : string) : M string :=
  fun st => (Returned (abspath w (history st) path), st).

Definition call (r : option raised) (ev : event) : M unit :=
  fun st =>
    match r with
    | None => (Returned tt, record ev st)
    | Some e => (Raised (Exc e), record ev st)
    end.

(** [os.makedirs(path, exist_ok=True)] *)
Definition os_makedirs (path : string) : M unit :=
  fun st =>
    let r := makedirs w (history st) path in
    call r (EvMakedirs path r) st.

(** [shutil.move(src, dst)] *)
Definition shutil_move (src dst : string) : M unit :=
  fun st =>
    let r := move w (history st) src dst in
    call r (EvMove src dst r) st.

(** [with open(path, 'w', encoding='utf-8') as f: f.write(content)] *)
Definition write_text (path content : string) : M unit :=
  fun st =>
    let r := write_file w (history st) path content in
    call r (EvWrite path content r) st.

(** Lines 40-43: the comprehension
    [[f for f in lines if os.path.isfile(os.path.join(root_dir, f))]]. *)
Fixpoint keep_files (root_dir : string) (lines : list string) : M (list string) :=
  match lines with
  | [] => ret []
  | f :: rest =>
      b <- os_path_isfile (posixpath.join root_dir f) ;;
      kept <- keep_files root_dir rest ;;
      ret (if b then f :: kept else kept)
  end.

Definition moved_line (relative_path : string) : string :=
  "  MOVED: " ++ relative_path.

Definition error_line (relative_path : string) (e : exn) : string :=
  "  ERROR: " ++ relative_path ++ " - Failed to move. Reason: " ++ str_exn w e.

(** Lines 68-90: the loop over [untracked_files]; [log_entries] and
    [files_moved_count] are the two locals that it updates. *)
Fixpoint move_files (root_dir cleanup_path : string) (untracked_files : list string)
  (log_entries : list string) (files_moved_count : nat) : M (list string * nat) :=
  match untracked_files with
  | [] => ret (log_entries, files_moved_count)
  | relative_path :: rest =>
      let source_path := posixpath.join root_dir relative_path in
      let target_path := posixpath.join cleanup_path relative_path in
      let target_dir := posixpath.dirname target_path in
      os_makedirs target_dir ;;
      ' (log_entries', files_moved_count') <-
        try_except
          (shutil_move source_path target_path ;;
           let log_line := moved_line relative_path in
           print ("  " ++ log_line) ;;
           ret ((log_entries ++ [log_line])%list, S files_moved_count))
          [ except_Exception (fun e =>
              print (error_line relative_path e) ;;
              ret ((log_entries ++ [error_line relative_path e])%list, files_moved_count)) ] ;;
      move_files root_dir cleanup_path rest log_entries' files_moved_count'
  end.

Definition git_rev_parse : list string :=
  ["git"; "rev-parse"; "--is-inside-work-tree"].

Definition git_ls_files : list string :=
  ["git"; "ls-files"; "--others"; "--exclude-standard"; "--full-name"].

Definition log_file_name : string := "cleanup_log.txt".

(** Lines 55-61: the head of the log. *)
Definition log_header (stamp source cleanup_folder : string) (found : nat) : list string :=
  [ "--- Git Untracked File Cleanup Log ---";
    "Date/Time of Execution: " ++ stamp;
    "Source Directory: " ++ source;
    "Destination Directory: " ++ cleanup_folder;
    "Total Files Found: " ++ Py.str_of_nat found ++ Py.nl;
    "Files Moved (Original Path -> Cleanup Path):" ++ Py.nl ].

(** Lines 92-93: the foot of the log. *)
Definition log_footer (files_moved_count : nat) : list string :=
  [ Py.nl ++ "Total Files Successfully Moved: " ++ Py.str_of_nat files_moved_count;
    "--- End of Log ---" ].

(** Lines 92-105: the foot of the log, the write of the log file and
    the closing report. *)
Definition write_log_and_report (cleanup_folder log_file_path : string)
  (log_entries : list string) (files_moved_count : nat) : M unit :=
  let log_entries := (log_entries ++ log_footer files_moved_count)%list in
  try_except
    (write_text log_file_path (Py.str_join Py.nl log_entries) ;;
     print (Py.nl ++ "Successfully generated log file: " ++ log_file_name
              ++ " inside " ++ cleanup_folder))
    [ except_Exception (fun e =>
        print (Py.nl ++ "FATAL ERROR: Could not write log file to " ++ log_file_path
                 ++ ". Reason: " ++ str_exn w e)) ] ;;
  print (Py.nl ++ "Cleanup complete!") ;;
  print ("All untracked, non-ignored files have been moved to: " ++ cleanup_folder).

(** Lines 51-105: what the script does once it has found files. *)
Definition move_and_log (root_dir cleanup_folder cleanup_path log_file_path : string)
  (untracked_files : list string) : M unit :=
  os_makedirs cleanup_path ;;
  print ("Created primary cleanup directory: " ++ cleanup_folder) ;;
  t1 <- now ;;
  source <- os_path_abspath root_dir ;;
  let log_entries :=
    log_header (strftime "%Y-%m-%d %H:%M:%S" t1) source cleanup_folder
               (length untracked_files) in
  print "-> Moving files and recreating structure..." ;;
  ' (log_entries, files_moved_count) <-
    move_files root_dir cleanup_path untracked_files log_entries 0 ;;
  write_log_and_report cleanup_folder log_file_path log_entries files_moved_count.

(** Lines 16-105: the body of the outer [try]. *)
Definition relocate (root_dir : string) : M unit :=
  t0 <- now ;;
  let current_date := strftime "%Y-%m-%d_%H%M%S" t0 in
  let cleanup_folder := "cleanup_untracked_" ++ current_date in
  let cleanup_path := posixpath.join root_dir cleanup_folder in
  let log_file_path := posixpath.join cleanup_path log_file_name in
  print ("Cleanup folder will be: " ++ cleanup_path) ;;
  subprocess_run git_rev_parse false root_dir ;;
  print "-> Finding untracked, non-ignored files..." ;;
  untracked_stdout <- subprocess_run git_ls_files true root_dir ;;
  untracked_files <- keep_files root_dir (Py.splitlines (Py.strip untracked_stdout)) ;;
  match untracked_files with
  | [] => print "No untracked and non-ignored files found to clean up."
  | _ :: _ =>
      print ("Found " ++ Py.str_of_nat (length untracked_files)
               ++ " untracked files that are not ignored.") ;;
      move_and_log root_dir cleanup_folder cleanup_path log_file_path untracked_files
  end.

(** Lines 107-113: the three clauses of the outer [try]. *)
Definition outer_clauses : list (clause unit) :=
  [ except_CalledProcessError (fun cmd stderr =>
      print ("Error executing git command. Ensure you are in a Git repository "
               ++ "and have Git installed. Details: " ++ Py.words_repr cmd) ;;
      print ("Stderr: " ++ captured_format (captured_strip stderr)));
    except_FileNotFoundError
      (print ("Error: The 'git' command was not found. Please ensure Git is "
                ++ "installed and in your system's PATH."));
    except_Exception (fun e =>
      print ("An unexpected error occurred: " ++ str_exn w e)) ].

Definition find_and_move_untracked_files (root_dir : string) : M unit :=
  try_except (relocate root_dir) outer_clauses.

(** ** [arc/__main__.py] *)

(** The [Namespace] that [parser.parse_args()] returns: the parser has
    the one positional argument [command].  [main] below is lines 11-12,
    the dispatch on a parsed command: line 9 is the call of [argparse],
    which is not modelled; when it refuses the command line it leaves
    the process before the dispatch, so that nothing is said here of a
    command line without a command, with an option, or with [-h]. *)
Record Namespace : Type := mkNamespace { command : string }.

Definition main (args : Namespace) : M unit :=
  if String.eqb (command args) "sweep"
  then find_and_move_untracked_files "."
  else ret tt.

End Relocator.

(** ** A scripted world, for running the script on concrete inputs *)

Module Sim.

Fixpoint lookup (k : string) (tbl : list (string * raised)) : option raised :=
  match tbl with
  | [] => None
  | (k', e) :: rest => if String.eqb k' k then Some e else lookup k rest
  end.

(** The clock shows [t]; the two git runs end as [rev] and [ls]; the
    regular files are [files]; [os.makedirs] fails on the paths of
    [bad_dirs], [shutil.move] on the sources of [bad_moves], and writing
    the log fails with [bad_write] when there is one.  The working
    directory is [/repo]. *)
Definition world (t : datetime) (rev ls : proc_result) (files : list string)
  (bad_dirs bad_moves : list (string * raised)) (bad_write : option raised) : World :=
  {| datetime_now := fun _ => t;
     run_process := fun _ cmd _ =>
       if list_eq_dec string_dec cmd git_rev_parse then rev else ls;
     isfile := fun _ p => existsb (String.eqb p) files;
     abspath := fun _ p => if String.eqb p "." then "/repo" else posixpath.join "/repo" p;
     makedirs := fun _ p => lookup p bad_dirs;
     move := fun _ src _ => lookup src bad_moves;
     write_file := fun _ _ _ => bad_write;
     signal_repr := fun _ => None |}.

Definition noon : datetime := mkDatetime 2025 3 9 12 0 5.

Definition ok (stdout : string) : proc_result := Exited 0 stdout "".

Definition perm : raised := mkRaised OtherException "[Errno 13] Permission denied".
Definition enoent : raised := mkRaised FileNotFoundError "[Errno 2] No such file or directory".
Definition enospc : raised := mkRaised OtherException "[Errno 28] No space left on device".

Definition folder : string := "./cleanup_untracked_2025-03-09_120005".

(** Two untracked files and a vanished entry; [b.txt] cannot be moved. *)
Definition listing : string :=
  "scratch/notes.txt" ++ Py.nl ++ "b.txt" ++ Py.nl ++ "gone" ++ Py.nl.

Definition w_demo : World :=
  world noon (ok "true") (ok listing) ["./scratch/notes.txt"; "./b.txt"]
        [] [("./b.txt", perm)] None.

(** The root is not in a repository; git is not installed. *)
Definition w_norepo : World :=
  world noon (Exited 128 "" "fatal: not a git repository") (ok "") [] [] [] None.

Definition w_nogit : World :=
  world noon (SpawnFailed enoent) (ok "") [] [] [] None.

(** A clean tree. *)
Definition w_clean : World :=
  world noon (ok "true") (ok "") [] [] [] None.

(** The log cannot be written. *)
Definition w_logfail : World :=
  world noon (ok "true") (ok listing) ["./scratch/notes.txt"; "./b.txt"]
        [] [] (Some enospc).

(** The directory [a] of the cleanup folder cannot be created: the
    system answers "no such file", or "permission denied". *)
Definition w_dirgone : World :=
  world noon (ok "true") (ok ("a/x" ++ Py.nl ++ "b.txt" ++ Py.nl))
        ["./a/x"; "./b.txt"] [(folder ++ "/a", enoent)] [] None.

Definition w_dirperm : World :=
  world noon (ok "true") (ok ("a/x" ++ Py.nl ++ "b.txt" ++ Py.nl))
        ["./a/x"; "./b.txt"] [(folder ++ "/a", perm)] [] None.




End Sim.

(** ** The stages of one run, started in the [initial] state *)

Module Run.
Section Stages.

Variable w : World.
Variable root_dir : string.

(** Lines 17-21. *)
Definition t0 : datetime := datetime_now w [].
Definition cleanup_folder : string :=
  "cleanup_untracked_" ++ strftime "%Y-%m-%d_%H%M%S" t0.
Definition cleanup_path : string := posixpath.join root_dir cleanup_folder.
Definition log_file_path : string := posixpath.join cleanup_path log_file_name.

(** Lines 26-27: how the repository check ends, and the history then. *)
Definition repo_check : proc_result :=
  run_process w [EvNow t0] git_rev_parse root_dir.
Definition h_check : list event :=
  [EvNow t0; EvRun git_rev_parse root_dir repo_check].

(** Lines 31-37: how the enumeration ends, and the history then. *)
Definition enumeration : proc_result :=
  run_process w h_check git_ls_files root_dir.
Definition h_enum : list event :=
  (h_check ++ [EvRun git_ls_files root_dir enumeration])%list.

(** Lines 40-43: the list [untracked_files] for the output [stdout]. *)
Definition untracked_files (stdout : string) : list string :=
  filter (fun f => isfile w h_enum (posixpath.join root_dir f))
         (Py.splitlines (Py.strip stdout)).

(** The console before the check and after it. *)
Definition c_start : list string := ["Cleanup folder will be: " ++ cleanup_path].
Definition c_enum : list string :=
  (c_start ++ ["-> Finding untracked, non-ignored files..."])%list.

(** Lines 52-61: the history when the loop starts, the stamp and the
    source directory written in the head of the log. *)
Definition h_made : list event := (h_enum ++ [EvMakedirs cleanup_path None])%list.
Definition t1 : datetime := datetime_now w h_made.
Definition h_loop : list event := (h_made ++ [EvNow t1])%list.
Definition stamp : string := strftime "%Y-%m-%d %H:%M:%S" t1.
Definition source : string := abspath w h_loop root_dir.

Definition final : outcome unit * state :=
  find_and_move_untracked_files w root_dir initial.

End Stages.
End Run.

(** The repository check fails: git exits non-zero, or is not found. *)
Definition check_failed (r : proc_result) : Prop :=
  match r with
  | Exited rc _ _ => rc <> 0%Z
  | SpawnFailed e => exc_class e = FileNotFoundError
  end.

(** What the outer clauses print for an exception. *)
Definition outer_report (w : World) (e : exn) : list string :=
  match e with
  | CalledProcessError cmd _ stderr =>
      [ "Error executing git command. Ensure you are in a Git repository "
          ++ "and have Git installed. Details: " ++ Py.words_repr cmd;
        "Stderr: " ++ captured_format (captured_strip stderr) ]
  | Exc r =>
      match exc_class r with
      | FileNotFoundError =>
          [ "Error: The 'git' command was not found. Please ensure Git is "
              ++ "installed and in your system's PATH." ]
      | OtherException => [ "An unexpected error occurred: " ++ exc_str r ]
      end
  end.

(** The exception that a failed process run raises under [check=True]. *)
Definition run_error (cmd : list string) (text : bool) (r : proc_result) : option exn :=
  match r with
  | SpawnFailed e => Some (Exc e)
  | Exited rc _ err =>
      if (rc =? 0)%Z then None
      else Some (CalledProcessError cmd rc (if text then CStr err else CBytes err))
  end.

(** One pass of the loop of lines 68-90, as a relation between the files,
    the two locals, the events and console lines produced, and the way
    the loop ends. *)
Inductive loop_run (w : World) (root_dir cleanup_path : string) :
  list string -> list string -> nat ->
  list event -> list string -> outcome (list string * nat) -> Prop :=
| loop_done : forall log n,
    loop_run w root_dir cleanup_path [] log n [] [] (Returned (log, n))
| loop_moved : forall p rest log n evs out r,
    loop_run w root_dir cleanup_path rest (log ++ [moved_line p])%list (S n) evs out r ->
    loop_run w root_dir cleanup_path (p :: rest) log n
      (EvMakedirs (posixpath.dirname (posixpath.join cleanup_path p)) None
         :: EvMove (posixpath.join root_dir p) (posixpath.join cleanup_path p) None :: evs)
      (("  " ++ moved_line p) :: out) r
| loop_failed : forall p rest log n e evs out r,
    loop_run w root_dir cleanup_path rest
      (log ++ [error_line w p (Exc e)])%list n evs out r ->
    loop_run w root_dir cleanup_path (p :: rest) log n
      (EvMakedirs (posixpath.dirname (posixpath.join cleanup_path p)) None
         :: EvMove (posixpath.join root_dir p) (posixpath.join cleanup_path p) (Some e) :: evs)
      (error_line w p (Exc e) :: out) r
| loop_aborted : forall p rest log n e,
    loop_run w root_dir cleanup_path (p :: rest) log n
      [EvMakedirs (posixpath.dirname (posixpath.join cleanup_path p)) (Some e)]
      [] (Raised (Exc e)).

(** The number of files that the events of a run show as moved. *)
Definition moved_count (evs : list event) : nat :=
  length (filter (fun ev => match ev with
                            | EvMove _ _ None => true
                            | _ => false
                            end) evs).

(** The log entry of a file, for the result of its move. *)
Definition log_entry (w : World) (x : string * option raised) : string :=
  match x with
  | (p, None) => moved_line p
  | (p, Some e) => error_line w p (Exc e)
  end.

(** The two events of a file whose directory could be created. *)
Definition file_events (root_dir cleanup_path : string) (x : string * option raised)
  : list event :=
  match x with
  | (p, r) =>
      [ EvMakedirs (posixpath.dirname (posixpath.join cleanup_path p)) None;
        EvMove (posixpath.join root_dir p) (posixpath.join cleanup_path p) r ]
  end.

Definition succeeded (r : option raised) : bool :=
  match r with
  | None => true
  | Some _ => false
  end.

(** The clauses of lines 107-111 are the specific ones. *)
Definition has_specific_clause (e : exn) : bool :=
  match e with
  | CalledProcessError _ _ _ => true
  | Exc r =>
      match exc_class r with
      | FileNotFoundError => true
      | OtherException => false
      end
  end.

(** The console lines of lines 49-64, for the files found. *)
Definition c_found (w : World) (root_dir : string) (files : list string) : list string :=
  List.app (Run.c_enum w root_dir)
    ["Found " ++ Py.str_of_nat (length files) ++ " untracked files that are not ignored."].

Definition c_loop (w : World) (root_dir : string) (files : list string) : list string :=
  List.app (c_found w root_dir files)
    ["Created primary cleanup directory: " ++ Run.cleanup_folder w;
     "-> Moving files and recreating structure..."].

(** What lines 99-101 print for the result of the write. *)
Definition write_report (w : World) (root_dir : string) (r : option raised) : string :=
  match r with
  | None => Py.nl ++ "Successfully generated log file: " ++ log_file_name
              ++ " inside " ++ Run.cleanup_folder w
  | Some e => Py.nl ++ "FATAL ERROR: Could not write log file to "
                ++ Run.log_file_path w root_dir ++ ". Reason: " ++ exc_str e
  end.

(** Lines 104-105. *)
Definition closing (w : World) : list string :=
  [ Py.nl ++ "Cleanup complete!";
    "All untracked, non-ignored files have been moved to: " ++ Run.cleanup_folder w ].

(** The six ways in which a run started in the [initial] state ends:
    the check fails, the enumeration fails, nothing is found, the
    cleanup folder cannot be made, the loop is left by an exception, or
    the loop ends and the log is written (or not). *)
Inductive run_shape (w : World) (root_dir : string) : outcome unit * state -> Prop :=
| shape_check_failed : forall e,
    run_error git_rev_parse false (Run.repo_check w root_dir) = Some e ->
    run_shape w root_dir
      (Returned tt,
       mkState (Run.h_check w root_dir)
               (Run.c_start w root_dir ++ outer_report w e)%list)
| shape_enum_failed : forall e,
    run_error git_rev_parse false (Run.repo_check w root_dir) = None ->
    run_error git_ls_files true (Run.enumeration w root_dir) = Some e ->
    run_shape w root_dir
      (Returned tt,
       mkState (Run.h_enum w root_dir)
               (Run.c_enum w root_dir ++ outer_report w e)%list)
| shape_nothing : forall out err,
    run_error git_rev_parse false (Run.repo_check w root_dir) = None ->
    Run.enumeration w root_dir = Exited 0 out err ->
    Run.untracked_files w root_dir out = [] ->
    run_shape w root_dir
      (Returned tt,
       mkState (Run.h_enum w root_dir)
               (Run.c_enum w root_dir
                  ++ ["No untracked and non-ignored files found to clean up."])%list)
| shape_no_folder : forall out err e,
    run_error git_rev_parse false (Run.repo_check w root_dir) = None ->
    Run.enumeration w root_dir = Exited 0 out err ->
    Run.untracked_files w root_dir out <> [] ->
    makedirs w (Run.h_enum w root_dir) (Run.cleanup_path w root_dir) = Some e ->
    run_shape w root_dir
      (Returned tt,
       mkState (Run.h_enum w root_dir
                  ++ [EvMakedirs (Run.cleanup_path w root_dir) (Some e)])%list
               (c_found w root_dir (Run.untracked_files w root_dir out)
                  ++ outer_report w (Exc e))%list)
| shape_loop_left : forall out err evs lines e,
    run_error git_rev_parse false (Run.repo_check w root_dir) = None ->
    Run.enumeration w root_dir = Exited 0 out err ->
    Run.untracked_files w root_dir out <> [] ->
    makedirs w (Run.h_enum w root_dir) (Run.cleanup_path w root_dir) = None ->
    loop_run w root_dir (Run.cleanup_path w root_dir)
      (Run.untracked_files w root_dir out)
      (log_header (Run.stamp w root_dir) (Run.source w root_dir) (Run.cleanup_folder w)
                  (length (Run.untracked_files w root_dir out)))
      0 evs lines (Raised e) ->
    run_shape w root_dir
      (Returned tt,
       mkState (Run.h_loop w root_dir ++ evs)%list
               (c_loop w root_dir (Run.untracked_files w root_dir out)
                  ++ lines ++ outer_report w e)%list)
| shape_completed : forall out err evs lines log k r,
    run_error git_rev_parse false (Run.repo_check w root_dir) = None ->
    Run.enumeration w root_dir = Exited 0 out err ->
    Run.untracked_files w root_dir out <> [] ->
    makedirs w (Run.h_enum w root_dir) (Run.cleanup_path w root_dir) = None ->
    loop_run w root_dir (Run.cleanup_path w root_dir)
      (Run.untracked_files w root_dir out)
      (log_header (Run.stamp w root_dir) (Run.source w root_dir) (Run.cleanup_folder w)
                  (length (Run.untracked_files w root_dir out)))
      0 evs lines (Returned (log, k)) ->
    r = write_file w (Run.h_loop w root_dir ++ evs)%list (Run.log_file_path w root_dir)
          (Py.str_join Py.nl (log ++ log_footer k)%list) ->
    run_shape w root_dir
      (Returned tt,
       mkState (Run.h_loop w root_dir ++ evs
                  ++ [EvWrite (Run.log_file_path w root_dir)
                        (Py.str_join Py.nl (log ++ log_footer k)) r])%list
               (c_loop w root_dir (Run.untracked_files w root_dir out)
                  ++ lines ++ write_report w root_dir r :: closing w)%list).

(** ** Further notions, for the rest of the script *)

(** The enumeration fails: git exits non-zero, or cannot be run. *)
Definition enumeration_failed (r : proc_result) : Prop :=
  match r with
  | Exited rc _ _ => rc <> 0%Z
  | SpawnFailed _ => True
  end.

(** The number of moves that the events show as raised. *)
Definition failed_count (evs : list event) : nat :=
  length (filter (fun ev => match ev with
                            | EvMove _ _ (Some _) => true
                            | _ => false
                            end) evs).

(** The calls that a run may make on the file system, for the files
    [files]: it makes the cleanup folder, makes the directory of a
    destination, moves a file of the list to the same relative path
    under the cleanup folder, and writes the log file. *)
Inductive confined (w : World) (root_dir : string) (files : list string) : event -> Prop :=
| confined_folder : forall r,
    confined w root_dir files (EvMakedirs (Run.cleanup_path w root_dir) r)
| confined_dir : forall p r,
    In p files ->
    confined w root_dir files
      (EvMakedirs (posixpath.dirname (posixpath.join (Run.cleanup_path w root_dir) p)) r)
| confined_move : forall p r,
    In p files ->
    confined w root_dir files
      (EvMove (posixpath.join root_dir p)
              (posixpath.join (Run.cleanup_path w root_dir) p) r)
| confined_log : forall content r,
    confined w root_dir files (EvWrite (Run.log_file_path w root_dir) content r).

(** The files found by a run: those of the output of the enumeration
    when it succeeds, none otherwise. *)
Definition found (w : World) (root_dir : string) : list string :=
  match Run.enumeration w root_dir with
  | Exited Z0 out _ => Run.untracked_files w root_dir out
  | _ => []
  end.

(** The first and the last character of a string. *)
Definition first_char (s : string) : option ascii :=
  match s with
  | EmptyString => None
  | String c _ => Some c
  end.

Fixpoint last_char (s : string) : option ascii :=
  match s with
  | EmptyString => None
  | String c EmptyString => Some c
  | String _ r => last_char r
  end.

(** The values of [datetime.datetime.now()]. *)
Definition is_datetime (t : datetime) : Prop :=
  1 <= year t < 10 * 1000 /\ 1 <= month t <= 12 /\ 1 <= day t <= 31
  /\ hour t < 24 /\ minute t < 60 /\ second t < 60.

(** Decimal digits. *)
Definition is_digit (c : ascii) : bool :=
  ((48 <=? Py.ord c) && (Py.ord c <=? 57))%nat.

Fixpoint all_digits (s : string) : bool :=
  match s with
  | EmptyString => true
  | String c r => is_digit c && all_digits r
  end.

(** The number that a string of decimal digits writes, after [acc]. *)
Fixpoint digits_value (acc : nat) (s : string) : nat :=
  match s with
  | EmptyString => acc
  | String c r => digits_value (10 * acc + (Py.ord c - 48)) r
  end.

(** [dir] is the directory of [path]: [path] is [dir], the slashes that
    part them, and a last component without a slash; either there is a
    slash between them and [dir] is a path that does not end with one,
    or [dir] is empty or the root (nothing but slashes). *)
Definition directory_of (dir path : string) : Prop :=
  exists seps f,
    path = dir ++ seps ++ f
    /\ posixpath.all_sep seps = true
    /\ Py.contains_char Py.SLASH f = false
    /\ ((seps = EmptyString /\ posixpath.all_sep dir = true)
        \/ (seps <> EmptyString /\ dir <> EmptyString
            /\ Py.endswith_char Py.SLASH dir = false)).

(** [x] is a directory above [dir], or [dir] itself, maybe written with
    slashes after it: what [os.makedirs(dir)] makes sure exists. *)
Definition on_the_way_to (dir x : string) : Prop :=
  (exists z, dir = x ++ String Py.SLASH z)
  \/ (exists s, posixpath.all_sep s = true /\ x = dir ++ s).



(** More scripted worlds. *)
Module Cases.

(** The enumeration exits with status 1; the cleanup folder cannot be
    made; git prints nothing but white space. *)
Definition w_lsfail : World :=
  Sim.world Sim.noon (Sim.ok "true") (Exited 1 "" ("error: index file corrupt" ++ Py.nl))
            [] [] [] None.

Definition w_nofolder : World :=
  Sim.world Sim.noon (Sim.ok "true") (Sim.ok Sim.listing)
            ["./scratch/notes.txt"; "./b.txt"] [(Sim.folder, Sim.perm)] [] None.

Definition w_spaces : World :=
  Sim.world Sim.noon (Sim.ok "true") (Sim.ok (" " ++ Py.nl ++ Py.nl))
            ["./"; "./ "] [] [] None.

End Cases.

(** Tactics for the histories of the stages. *)
Ltac unfold_stages :=
  unfold Run.h_loop, Run.h_made, Run.h_enum, Run.h_check in *.

Ltac absent_event :=
  let H := fresh "Hin" in
  intro H; unfold_stages; cbn [In app] in H; intuition discriminate.

(** * Properties *)

(** ** The library functions on small inputs *)

Example join_ex1 : posixpath.join "." "a/b.txt" = "./a/b.txt".
Proof. reflexivity. Qed.

Example dirname_ex1 : posixpath.dirname "./c/a/b.txt" = "./c/a".
Proof. reflexivity. Qed.

Example dirname_ex2 : posixpath.dirname "/x" = "/".
Proof. reflexivity. Qed.

Example splitlines_ex1 :
  Py.splitlines ("a" ++ Py.nl ++ Py.nl ++ "b c" ++ Py.nl) = ["a"; ""; "b c"].
Proof. reflexivity. Qed.

Example strip_ex1 : Py.strip (" a b " ++ Py.nl) = "a b".
Proof. reflexivity. Qed.

Example bytes_repr_ex1 : Py.bytes_repr "fatal: x" = "b'fatal: x'".
Proof. reflexivity. Qed.

Example words_repr_ex1 : Py.words_repr ["git"; "rev-parse"] = "['git', 'rev-parse']".
Proof. reflexivity. Qed.

Example str_of_nat_ex1 : Py.str_of_nat 0 = "0" /\ Py.str_of_nat 12 = "12".
Proof. split; reflexivity. Qed.

Example strftime_ex1 :
  strftime "%Y-%m-%d_%H%M%S" Sim.noon = "2025-03-09_120005".
Proof. reflexivity. Qed.

(** ** The loop *)

Lemma state_eta : forall st, mkState (history st) (console st) = st.
Proof. destruct st; reflexivity. Qed.

Section LoopSteps.

Variable w : World.
Variables root_dir cleanup_path : string.
Variables (p : string) (rest : list string) (log : list string) (n : nat).
Variable st : state.

(** A failed directory creation leaves the loop at once. *)
Lemma move_files_cons_abort :
  forall e,
    makedirs w (history st) (posixpath.dirname (posixpath.join cleanup_path p)) = Some e ->
    move_files w root_dir cleanup_path (p :: rest) log n st
    = (Raised (Exc e),
       mkState (history st ++ [EvMakedirs (posixpath.dirname (posixpath.join cleanup_path p)) (Some e)]) (console st)).
Proof.
  intros e Hmk.
  cbn [move_files]. unfold bind, os_makedirs, call, record.
  rewrite Hmk. reflexivity.
Qed.

(** A successful move logs its line and goes on with the other files. *)
Lemma move_files_cons_moved :
  makedirs w (history st) (posixpath.dirname (posixpath.join cleanup_path p)) = None ->
  move w (history st ++ [EvMakedirs (posixpath.dirname (posixpath.join cleanup_path p)) None]) (posixpath.join root_dir p) (posixpath.join cleanup_path p) = None ->
  move_files w root_dir cleanup_path (p :: rest) log n st
  = move_files w root_dir cleanup_path rest (log ++ [moved_line p]) (S n)
      (mkState (history st ++ [EvMakedirs (posixpath.dirname (posixpath.join cleanup_path p)) None;
                               EvMove (posixpath.join root_dir p) (posixpath.join cleanup_path p) None])
               (console st ++ ["  " ++ moved_line p])).
Proof.
  intros Hmk Hmv.
  cbn [move_files].
  unfold bind, os_makedirs, try_except, shutil_move, call, record, print, ret.
  rewrite Hmk. cbn [history console]. rewrite Hmv. cbn [history console].
  rewrite <- app_assoc. reflexivity.
Qed.

(** A move that raises logs its error line and goes on with the other
    files. *)
Lemma move_files_cons_failed :
  forall e,
    makedirs w (history st) (posixpath.dirname (posixpath.join cleanup_path p)) = None ->
    move w (history st ++ [EvMakedirs (posixpath.dirname (posixpath.join cleanup_path p)) None]) (posixpath.join root_dir p) (posixpath.join cleanup_path p) = Some e ->
    move_files w root_dir cleanup_path (p :: rest) log n st
    = move_files w root_dir cleanup_path rest (log ++ [error_line w p (Exc e)]) n
        (mkState (history st ++ [EvMakedirs (posixpath.dirname (posixpath.join cleanup_path p)) None;
                                 EvMove (posixpath.join root_dir p) (posixpath.join cleanup_path p) (Some e)])
                 (console st ++ [error_line w p (Exc e)])).
Proof.
  intros e Hmk Hmv.
  cbn [move_files].
  unfold bind, os_makedirs, try_except, shutil_move, call, record, print, ret.
  rewrite Hmk. cbn [history console]. rewrite Hmv.
  cbn [history console dispatch except_Exception].
  rewrite <- app_assoc. reflexivity.
Qed.

End LoopSteps.

Lemma move_files_sound :
  forall w root_dir cleanup_path files log n st,
  exists evs out,
    loop_run w root_dir cleanup_path files log n evs out
      (fst (move_files w root_dir cleanup_path files log n st)) /\
    snd (move_files w root_dir cleanup_path files log n st)
      = mkState (history st ++ evs) (console st ++ out).
Proof.
  intros w root_dir cleanup_path files.
  induction files as [| p rest IH]; intros log n st.
  - exists [], []. cbn [move_files ret fst snd].
    rewrite !app_nil_r, state_eta. split; [constructor | reflexivity].
  - destruct (makedirs w (history st)
                (posixpath.dirname (posixpath.join cleanup_path p))) as [e |] eqn:Hmk.
    + rewrite (move_files_cons_abort _ _ _ _ _ _ _ _ _ Hmk).
      exists [EvMakedirs (posixpath.dirname (posixpath.join cleanup_path p)) (Some e)], [].
      cbn [fst snd]. rewrite app_nil_r.
      split; [constructor | reflexivity].
    + destruct (move w (history st ++
                  [EvMakedirs (posixpath.dirname (posixpath.join cleanup_path p)) None])
                  (posixpath.join root_dir p) (posixpath.join cleanup_path p))
        as [e |] eqn:Hmv.
      * rewrite (move_files_cons_failed _ _ _ _ _ _ _ _ _ Hmk Hmv).
        match goal with
        | |- context [move_files _ _ _ rest ?l ?k ?s] =>
            destruct (IH l k s) as (evs & out & Hrun & Hst)
        end.
        eexists (_ :: _ :: evs), (_ :: out). split.
        -- eapply loop_failed. exact Hrun.
        -- rewrite Hst. cbn [history console]. rewrite <- !app_assoc. reflexivity.
      * rewrite (move_files_cons_moved _ _ _ _ _ _ _ _ Hmk Hmv).
        match goal with
        | |- context [move_files _ _ _ rest ?l ?k ?s] =>
            destruct (IH l k s) as (evs & out & Hrun & Hst)
        end.
        eexists (_ :: _ :: evs), (_ :: out). split.
        -- eapply loop_moved. exact Hrun.
        -- rewrite Hst. cbn [history console]. rewrite <- !app_assoc. reflexivity.
Qed.

(** ** The blocks of the script *)

Lemma bind_unfold :
  forall (A B : Type) (m : M A) (k : A -> M B) st,
    bind m k st = match m st with
                  | (Returned a, st') => k a st'
                  | (Raised e, st') => (Raised e, st')
                  end.
Proof. reflexivity. Qed.

(** The comprehension of lines 40-43 is a filter by the answer of
    [os.path.isfile]; it leaves the state as it is. *)
Lemma keep_files_filter :
  forall w root_dir lines st,
    keep_files w root_dir lines st
    = (Returned (filter (fun f => isfile w (history st) (posixpath.join root_dir f)) lines),
       st).
Proof.
  intros w root_dir lines st.
  induction lines as [| f rest IH]; [reflexivity |].
  cbn [keep_files filter]. rewrite bind_unfold. unfold os_path_isfile at 1.
  rewrite bind_unfold, IH. unfold ret.
  destruct (isfile w (history st) (posixpath.join root_dir f)); reflexivity.
Qed.

(** The three outer clauses handle every exception, and return. *)
Lemma outer_clauses_total :
  forall w e st,
    dispatch (outer_clauses w) e st
    = (Returned tt, mkState (history st) (console st ++ outer_report w e)).
Proof.
  intros w e st. destruct e as [cmd rc stderr | [cls msg]].
  - unfold outer_clauses, dispatch, except_CalledProcessError, bind, print, outer_report.
    cbn [history console]. rewrite <- app_assoc. reflexivity.
  - destruct cls; reflexivity.
Qed.

Lemma write_log_and_report_run :
  forall w cleanup_folder log_file_path log k st,
    let content := Py.str_join Py.nl (log ++ log_footer k) in
    let r := write_file w (history st) log_file_path content in
    write_log_and_report w cleanup_folder log_file_path log k st
    = (Returned tt,
       mkState (history st ++ [EvWrite log_file_path content r])
               (console st ++
                  [ match r with
                    | None => Py.nl ++ "Successfully generated log file: " ++ log_file_name
                                ++ " inside " ++ cleanup_folder
                    | Some e => Py.nl ++ "FATAL ERROR: Could not write log file to "
                                  ++ log_file_path ++ ". Reason: " ++ exc_str e
                    end;
                    Py.nl ++ "Cleanup complete!";
                    "All untracked, non-ignored files have been moved to: "
                      ++ cleanup_folder ])).
Proof.
  intros w cleanup_folder log_file_path log k st content r.
  unfold write_log_and_report, bind, try_except, write_text, call, record, print.
  fold content. fold r. destruct r as [e |].
  - cbn [dispatch except_Exception history console str_exn].
    rewrite <- !app_assoc. reflexivity.
  - cbn [history console]. rewrite <- !app_assoc. reflexivity.
Qed.

Lemma subprocess_run_unfold :
  forall w cmd text cwd st,
    subprocess_run w cmd text cwd st
    = let r := run_process w (history st) cmd cwd in
      (match run_error cmd text r with
       | Some e => Raised e
       | None => Returned (match r with Exited _ out _ => out | SpawnFailed _ => EmptyString end)
       end,
       mkState (history st ++ [EvRun cmd cwd r]) (console st)).
Proof.
  intros w cmd text cwd st. unfold subprocess_run, run_error, record. cbv zeta.
  destruct (run_process w (history st) cmd cwd) as [rc out err | e]; [| reflexivity].
  destruct (rc =? 0)%Z; reflexivity.
Qed.

Lemma run_error_none :
  forall cmd text r, run_error cmd text r = None -> exists out err, r = Exited 0 out err.
Proof.
  intros cmd text [rc out err | e] H; cbn in H; [| discriminate].
  destruct (Z.eqb_spec rc 0); [subst; eauto | discriminate].
Qed.

(** Lines 17-43: the script up to the list of the files found. *)
Lemma relocate_prefix :
  forall w root_dir,
    relocate w root_dir initial
    = match run_error git_rev_parse false (Run.repo_check w root_dir) with
      | Some e => (Raised e, mkState (Run.h_check w root_dir) (Run.c_start w root_dir))
      | None =>
          match run_error git_ls_files true (Run.enumeration w root_dir) with
          | Some e => (Raised e, mkState (Run.h_enum w root_dir) (Run.c_enum w root_dir))
          | None =>
              let files :=
                Run.untracked_files w root_dir
                  (match Run.enumeration w root_dir with
                   | Exited _ out _ => out
                   | SpawnFailed _ => EmptyString
                   end) in
              match files with
              | [] => print "No untracked and non-ignored files found to clean up."
              | _ :: _ =>
                  print ("Found " ++ Py.str_of_nat (length files)
                           ++ " untracked files that are not ignored.") ;;
                  move_and_log w root_dir (Run.cleanup_folder w) (Run.cleanup_path w root_dir)
                    (Run.log_file_path w root_dir) files
              end (mkState (Run.h_enum w root_dir) (Run.c_enum w root_dir))
          end
      end.
Proof.
  intros w root_dir. unfold relocate.
  rewrite bind_unfold. unfold now at 1, record, initial. cbn [history console app].
  rewrite bind_unfold. unfold print at 1. cbn [history console app].
  rewrite bind_unfold, subprocess_run_unfold. cbv zeta. cbn [history console app].
  fold (Run.t0 w). fold (Run.repo_check w root_dir). fold (Run.h_check w root_dir).
  fold (Run.cleanup_folder w). fold (Run.cleanup_path w root_dir).
  fold (Run.log_file_path w root_dir). fold (Run.c_start w root_dir).
  destruct (run_error git_rev_parse false (Run.repo_check w root_dir)); [reflexivity |].
  rewrite bind_unfold. unfold print at 1. cbn [history console].
  rewrite bind_unfold, subprocess_run_unfold. cbv zeta. cbn [history console].
  fold (Run.c_enum w root_dir).
  fold (Run.enumeration w root_dir). fold (Run.h_enum w root_dir).
  destruct (run_error git_ls_files true (Run.enumeration w root_dir)); [reflexivity |].
  rewrite bind_unfold, keep_files_filter. cbn [history].
  reflexivity.
Qed.

(** Lines 51-105, from any state. *)
Lemma move_and_log_run :
  forall w root_dir cleanup_folder cleanup_path log_file_path files st,
    move_and_log w root_dir cleanup_folder cleanup_path log_file_path files st
    = match makedirs w (history st) cleanup_path with
      | Some e =>
          (Raised (Exc e),
           mkState (history st ++ [EvMakedirs cleanup_path (Some e)]) (console st))
      | None =>
          let h1 := (history st ++ [EvMakedirs cleanup_path None])%list in
          let t1 := datetime_now w h1 in
          let h2 := (h1 ++ [EvNow t1])%list in
          match
            move_files w root_dir cleanup_path files
              (log_header (strftime "%Y-%m-%d %H:%M:%S" t1) (abspath w h2 root_dir)
                          cleanup_folder (length files))
              0
              (mkState h2
                 (console st ++
                    ["Created primary cleanup directory: " ++ cleanup_folder;
                     "-> Moving files and recreating structure..."]))
          with
          | (Returned (log, k), st') =>
              write_log_and_report w cleanup_folder log_file_path log k st'
          | (Raised e, st') => (Raised e, st')
          end
      end.
Proof.
  intros w root_dir cleanup_folder cleanup_path log_file_path files st.
  unfold move_and_log.
  rewrite bind_unfold. unfold os_makedirs at 1, call, record.
  destruct (makedirs w (history st) cleanup_path) as [e |]; [reflexivity |].
  rewrite bind_unfold. unfold print at 1. cbn [history console].
  rewrite bind_unfold. unfold now at 1, record. cbn [history console].
  rewrite bind_unfold. unfold os_path_abspath at 1. cbn [history console].
  rewrite bind_unfold. unfold print at 1. cbn [history console].
  rewrite bind_unfold. cbv zeta. rewrite <- !app_assoc. cbn [app].
  destruct (move_files _ _ _ _ _ _ _) as [[[log k] | e] st']; reflexivity.
Qed.

(** ** Every run has one of the six shapes *)

Lemma final_shape :
  forall w root_dir, run_shape w root_dir (Run.final w root_dir).
Proof.
  intros w root_dir.
  unfold Run.final, find_and_move_untracked_files, try_except.
  rewrite relocate_prefix.
  destruct (run_error git_rev_parse false (Run.repo_check w root_dir)) as [e |] eqn:Hrev.
  { rewrite outer_clauses_total. cbn [history console]. now apply shape_check_failed. }
  destruct (run_error git_ls_files true (Run.enumeration w root_dir)) as [e |] eqn:Hls.
  { rewrite outer_clauses_total. cbn [history console]. now apply shape_enum_failed. }
  destruct (run_error_none _ _ _ Hls) as (out & err & Henum).
  rewrite Henum. cbv zeta.
  destruct (Run.untracked_files w root_dir out) as [| f files] eqn:Hfiles.
  { unfold print. cbn [history console]. eapply shape_nothing; eassumption. }
  rewrite <- Hfiles.
  assert (Hne : Run.untracked_files w root_dir out <> []) by (rewrite Hfiles; discriminate).
  rewrite bind_unfold. unfold print at 1. cbn [history console].
  fold (c_found w root_dir (Run.untracked_files w root_dir out)).
  rewrite move_and_log_run. cbn [history console].
  destruct (makedirs w (Run.h_enum w root_dir) (Run.cleanup_path w root_dir))
    as [e |] eqn:Hmk.
  { rewrite outer_clauses_total. cbn [history console].
    eapply shape_no_folder; eassumption. }
  cbv zeta.
  fold (Run.h_made w root_dir). fold (Run.t1 w root_dir). fold (Run.h_loop w root_dir).
  fold (Run.stamp w root_dir). fold (Run.source w root_dir).
  fold (c_loop w root_dir (Run.untracked_files w root_dir out)).
  match goal with
  | |- context [move_files w ?r ?c ?fs ?l ?k ?s] =>
      destruct (move_files_sound w r c fs l k s) as (evs & lines & Hrun & Hst);
      destruct (move_files w r c fs l k s) as [[[log k'] | e] st']
  end; cbn [fst snd] in Hrun, Hst; subst st'; cbn [history console] in *.
  - rewrite write_log_and_report_run. cbv zeta. cbn [history console].
    rewrite <- !app_assoc. cbn [app].
    eapply (shape_completed w root_dir out err evs lines log k'); try eassumption.
    reflexivity.
  - rewrite outer_clauses_total. cbn [history console]. rewrite <- !app_assoc.
    eapply shape_loop_left; eassumption.
Qed.

(** ** Lists of events *)

Lemma split_after_prefix :
  forall (pre l a b : list event) x,
    (pre ++ l = a ++ x :: b)%list -> ~ In x pre ->
    exists a2, a = (pre ++ a2)%list /\ l = (a2 ++ x :: b)%list.
Proof.
  induction pre as [| y pre IH]; intros l a b x Heq Hnot.
  - exists a. split; [reflexivity | exact Heq].
  - destruct a as [| z a].
    + cbn in Heq. injection Heq as Hy _. exfalso. apply Hnot. left. exact Hy.
    + cbn in Heq. injection Heq as Hy Heq. subst z.
      destruct (IH l a b x Heq) as (a2 & Ha & Hl).
      * intro Hin. apply Hnot. right. exact Hin.
      * exists a2. split; [cbn; now rewrite Ha | exact Hl].
Qed.

Lemma split_before_suffix :
  forall (l post a b : list event) x,
    (l ++ post = a ++ x :: b)%list -> ~ In x post ->
    exists b2, b = (b2 ++ post)%list /\ l = (a ++ x :: b2)%list.
Proof.
  induction l as [| y l IH]; intros post a b x Heq Hnot.
  - cbn in Heq. exfalso. apply Hnot. rewrite Heq. apply in_elt.
  - destruct a as [| z a].
    + cbn in Heq. injection Heq as Hy Heq. subst y b.
      exists l. split; reflexivity.
    + cbn in Heq. injection Heq as Hy Heq. subst z.
      destruct (IH post a b x Heq Hnot) as (b2 & Hb & Hl).
      exists b2. split; [exact Hb | cbn; now rewrite Hl].
Qed.

Lemma split_in_middle :
  forall (pre mid post a b : list event) x,
    (pre ++ mid ++ post = a ++ x :: b)%list -> ~ In x pre -> ~ In x post ->
    exists a2 b2, a = (pre ++ a2)%list /\ b = (b2 ++ post)%list
                  /\ mid = (a2 ++ x :: b2)%list.
Proof.
  intros pre mid post a b x Heq Hpre Hpost.
  destruct (split_after_prefix pre (mid ++ post) a b x Heq Hpre) as (a2 & Ha & Hl).
  destruct (split_before_suffix mid post a2 b x Hl Hpost) as (b2 & Hb & Hm).
  exists a2, b2. auto.
Qed.

(** ** What the loop leaves in the history *)

Section LoopFacts.

Variable w : World.
Variables root_dir cleanup_path : string.

(** Every move of the loop is for one of the files, goes to the same
    relative path under the cleanup folder, and comes right after the
    creation of the directory of its destination. *)
Lemma loop_run_move_preceded :
  forall files log n evs out r,
    loop_run w root_dir cleanup_path files log n evs out r ->
    forall a b src dst res,
      evs = (a ++ EvMove src dst res :: b)%list ->
      exists p a',
        In p files /\ src = posixpath.join root_dir p
        /\ dst = posixpath.join cleanup_path p
        /\ a = (a' ++ [EvMakedirs (posixpath.dirname dst) None])%list.
Proof.
  intros files log n evs out r Hrun.
  induction Hrun as [log n | p rest log n evs out r Hrun IH
                     | p rest log n e evs out r Hrun IH | p rest log n e];
    intros a b src dst res Heq.
  - destruct a; discriminate.
  - destruct a as [| x [| y a]]; cbn in Heq.
    + discriminate.
    + inversion Heq; subst. exists p, []. repeat split. now left.
    + inversion Heq as [[Hx Hy Hevs]].
      destruct (IH a b src dst res Hevs) as (q & a' & Hin & Hs & Hd & Ha).
      exists q, (x :: y :: a'). subst x y.
      repeat split; auto; [now right | cbn; now rewrite <- Ha].
  - destruct a as [| x [| y a]]; cbn in Heq.
    + discriminate.
    + inversion Heq; subst. exists p, []. repeat split. now left.
    + inversion Heq as [[Hx Hy Hevs]].
      destruct (IH a b src dst res Hevs) as (q & a' & Hin & Hs & Hd & Ha).
      exists q, (x :: y :: a'). subst x y.
      repeat split; auto; [now right | cbn; now rewrite <- Ha].
  - destruct a as [| x [| y a]]; cbn in Heq; discriminate.
Qed.

(** A directory creation that fails is the last event of the loop, and
    its exception is the one that leaves the loop. *)
Lemma loop_run_makedirs_failed :
  forall files log n evs out r,
    loop_run w root_dir cleanup_path files log n evs out r ->
    forall a b d e,
      evs = (a ++ EvMakedirs d (Some e) :: b)%list ->
      b = [] /\ r = Raised (Exc e).
Proof.
  intros files log n evs out r Hrun.
  induction Hrun as [log n | p rest log n evs out r Hrun IH
                     | p rest log n e0 evs out r Hrun IH | p rest log n e0];
    intros a b d e Heq.
  - destruct a; discriminate.
  - destruct a as [| x [| y a]]; cbn in Heq; try discriminate.
    inversion Heq as [[Hx Hy Hevs]]. eauto.
  - destruct a as [| x [| y a]]; cbn in Heq; try discriminate.
    inversion Heq as [[Hx Hy Hevs]]. eauto.
  - destruct a as [| x a]; cbn in Heq.
    + inversion Heq; subst. auto.
    + inversion Heq as [[Hx Hevs]]. destruct a; discriminate.
Qed.

(** The loop only creates directories and moves files. *)
Lemma loop_run_events_kind :
  forall files log n evs out r,
    loop_run w root_dir cleanup_path files log n evs out r ->
    forall ev, In ev evs ->
      match ev with
      | EvMakedirs _ _ | EvMove _ _ _ => True
      | _ => False
      end.
Proof.
  intros files log n evs out r Hrun.
  induction Hrun as [| ? ? ? ? ? ? ? ? IH | ? ? ? ? ? ? ? ? ? IH |];
    intros ev Hin; cbn in Hin.
  - contradiction.
  - destruct Hin as [<- | [<- | Hin]]; [exact I | exact I | now apply IH].
  - destruct Hin as [<- | [<- | Hin]]; [exact I | exact I | now apply IH].
  - destruct Hin as [<- | []]; exact I.
Qed.

(** A loop that ends normally has made the two calls of every file, has
    added one entry per file, in order, and has counted the moves that
    succeeded. *)
Lemma loop_run_completed :
  forall files log n evs out r,
    loop_run w root_dir cleanup_path files log n evs out r ->
    forall log' n', r = Returned (log', n') ->
    exists results,
      length results = length files
      /\ evs = flat_map (file_events root_dir cleanup_path) (combine files results)
      /\ log' = (log ++ map (log_entry w) (combine files results))%list
      /\ n' = n + length (filter succeeded results)
      /\ n' = n + moved_count evs.
Proof.
  intros files log n evs out r Hrun.
  induction Hrun as [log n | p rest log n evs out r Hrun IH
                     | p rest log n e evs out r Hrun IH | p rest log n e];
    intros log' n' Hr.
  - injection Hr as <- <-. exists []. cbn. rewrite app_nil_r.
    repeat split; auto with arith.
  - destruct (IH log' n' Hr) as (results & Hlen & Hevs & Hlog & Hn & Hm).
    exists (None :: results). cbn [length combine flat_map map filter succeeded
                                    file_events log_entry app].
    rewrite Hlen, <- Hevs, Hlog, <- app_assoc.
    repeat split; auto.
    + rewrite Hn. cbn. lia.
    + rewrite Hm. unfold moved_count. cbn. lia.
  - destruct (IH log' n' Hr) as (results & Hlen & Hevs & Hlog & Hn & Hm).
    exists (Some e :: results). cbn [length combine flat_map map filter succeeded
                                      file_events log_entry app].
    rewrite Hlen, <- Hevs, Hlog, <- app_assoc.
    repeat split; auto.
  - discriminate.
Qed.

End LoopFacts.

(** ** What the script leaves in the history before the loop *)

Lemma h_loop_has_folder :
  forall w root_dir,
    In (EvMakedirs (Run.cleanup_path w root_dir) None) (Run.h_loop w root_dir).
Proof. intros. unfold_stages. cbn [In app]. auto 6. Qed.

Lemma h_loop_no_move :
  forall w root_dir src dst r, ~ In (EvMove src dst r) (Run.h_loop w root_dir).
Proof. intros. absent_event. Qed.

Lemma h_loop_no_write :
  forall w root_dir path content r, ~ In (EvWrite path content r) (Run.h_loop w root_dir).
Proof. intros. absent_event. Qed.

Lemma h_loop_no_failure :
  forall w root_dir d e, ~ In (EvMakedirs d (Some e)) (Run.h_loop w root_dir).
Proof. intros. absent_event. Qed.

Lemma h_enum_pure :
  forall w root_dir ev, In ev (Run.h_enum w root_dir) -> mutates ev = false.
Proof.
  intros w root_dir ev Hin. unfold_stages. cbn [In app] in Hin.
  destruct Hin as [<- | [<- | [<- | []]]]; reflexivity.
Qed.

Lemma h_check_pure :
  forall w root_dir ev, In ev (Run.h_check w root_dir) -> mutates ev = false.
Proof.
  intros w root_dir ev Hin. apply (h_enum_pure w root_dir).
  unfold Run.h_enum. apply in_or_app. now left.
Qed.

(** ** Further lemmas on the loop, the log, strings and paths *)

Lemma move_files_app :
  forall w root_dir cleanup_path pre post log n st,
    move_files w root_dir cleanup_path (pre ++ post) log n st
    = match move_files w root_dir cleanup_path pre log n st with
      | (Returned (log1, n1), st1) => move_files w root_dir cleanup_path post log1 n1 st1
      | (Raised e, st1) => (Raised e, st1)
      end.
Proof.
  intros w root_dir cleanup_path pre post.
  induction pre as [| p pre IH]; intros log n st; [reflexivity |].
  cbn [app].
  destruct (makedirs w (history st)
              (posixpath.dirname (posixpath.join cleanup_path p))) as [e |] eqn:Hmk.
  - now rewrite !(move_files_cons_abort _ _ _ _ _ _ _ _ _ Hmk).
  - destruct (move w (history st ++
                [EvMakedirs (posixpath.dirname (posixpath.join cleanup_path p)) None])
                (posixpath.join root_dir p) (posixpath.join cleanup_path p))
      as [e |] eqn:Hmv.
    + rewrite !(move_files_cons_failed _ _ _ _ _ _ _ _ _ Hmk Hmv). apply IH.
    + rewrite !(move_files_cons_moved _ _ _ _ _ _ _ _ Hmk Hmv). apply IH.
Qed.

(** The loop never drops an entry of the log. *)
Lemma move_files_keeps_log :
  forall w root_dir cleanup_path files log n st log' n' st',
    move_files w root_dir cleanup_path files log n st = (Returned (log', n'), st') ->
    exists more, log' = (log ++ more)%list.
Proof.
  intros w root_dir cleanup_path files log n st log' n' st' Heq.
  destruct (move_files_sound w root_dir cleanup_path files log n st)
    as (evs & out & Hrun & _).
  rewrite Heq in Hrun. cbn [fst] in Hrun.
  destruct (loop_run_completed _ _ _ _ _ _ _ _ _ Hrun _ _ eq_refl)
    as (results & _ & _ & Hlog & _).
  eauto.
Qed.




Lemma moved_count_app :
  forall a b, moved_count (a ++ b) = moved_count a + moved_count b.
Proof.
  intros a b. unfold moved_count. now rewrite filter_app, length_app.
Qed.

Lemma moved_count_h_loop :
  forall w root_dir, moved_count (Run.h_loop w root_dir) = 0.
Proof. intros. unfold_stages. reflexivity. Qed.

Lemma find_and_move_unfold :
  forall w root_dir st,
    find_and_move_untracked_files w root_dir st
    = match relocate w root_dir st with
      | (Returned a, st') => (Returned a, st')
      | (Raised e, st') =>
          (Returned tt, mkState (history st') (console st' ++ outer_report w e))
      end.
Proof.
  intros w root_dir st. unfold find_and_move_untracked_files, try_except.
  destruct (relocate w root_dir st) as [[a | e] st']; [reflexivity |].
  apply outer_clauses_total.
Qed.

Lemma loop_run_confined :
  forall w root_dir files log n evs out r,
    loop_run w root_dir (Run.cleanup_path w root_dir) files log n evs out r ->
    forall ev, In ev evs -> confined w root_dir files ev.
Proof.
  intros w root_dir files log n evs out r Hrun.
  assert (Hweak : forall p fs ev, confined w root_dir fs ev -> confined w root_dir (p :: fs) ev).
  { intros p fs ev Hc. destruct Hc; constructor; now right. }
  induction Hrun as [| p rest ? ? ? ? ? ? IH | p rest ? ? ? ? ? ? ? IH | p rest ? ? ?];
    intros ev Hin; cbn [In] in Hin.
  - contradiction.
  - destruct Hin as [<- | [<- | Hin]].
    + apply confined_dir. now left.
    + apply confined_move. now left.
    + apply Hweak. now apply IH.
  - destruct Hin as [<- | [<- | Hin]].
    + apply confined_dir. now left.
    + apply confined_move. now left.
    + apply Hweak. now apply IH.
  - destruct Hin as [<- | []]. apply confined_dir. now left.
Qed.

Lemma counts_of_file_events :
  forall root_dir cleanup_path (xs : list (string * option raised)),
    moved_count (flat_map (file_events root_dir cleanup_path) xs)
    + failed_count (flat_map (file_events root_dir cleanup_path) xs)
    = length xs.
Proof.
  intros root_dir cleanup_path xs.
  induction xs as [| [p [e |]] xs IH]; [reflexivity | |];
    unfold moved_count, failed_count in *; cbn [flat_map file_events app filter length];
    lia.
Qed.

Lemma failed_count_app :
  forall a b, failed_count (a ++ b) = failed_count a + failed_count b.
Proof.
  intros a b. unfold failed_count. now rewrite filter_app, length_app.
Qed.

Lemma failed_count_h_loop :
  forall w root_dir, failed_count (Run.h_loop w root_dir) = 0.
Proof. intros. unfold_stages. reflexivity. Qed.

Lemma in_combine_left :
  forall (A B : Type) (xs : list A) (ys : list B) x,
    length ys = length xs -> In x xs -> exists y, In (x, y) (combine xs ys).
Proof.
  intros A B xs. induction xs as [| a xs IH]; intros ys x Hlen Hin; [contradiction |].
  destruct ys as [| b ys]; [discriminate |].
  cbn [length] in Hlen. injection Hlen as Hlen.
  destruct Hin as [<- | Hin].
  - exists b. now left.
  - destruct (IH ys x Hlen Hin) as (y & Hy). exists y. now right.
Qed.

Lemma lstrip_blank :
  forall s, Py.is_blank s = true -> Py.lstrip_with Py.isspace s = EmptyString.
Proof.
  induction s as [| c r IH]; intro Hb; [reflexivity |].
  cbn in Hb. apply andb_true_iff in Hb. destruct Hb as [Hc Hr].
  cbn. rewrite Hc. now apply IH.
Qed.

Lemma linebreak_is_space :
  forall c, Py.is_linebreak c = true -> Py.isspace c = true.
Proof.
  intros c H.
  destruct c as [[] [] [] [] [] [] [] []]; vm_compute in H |- *; congruence.
Qed.

Lemma lstrip_first_char :
  forall sp s c, first_char (Py.lstrip_with sp s) = Some c -> sp c = false.
Proof.
  intros sp s c. induction s as [| a r IH]; cbn; [discriminate |].
  destruct (sp a) eqn:Ha; [exact IH |].
  cbn. intros [= <-]. exact Ha.
Qed.

Lemma rstrip_keeps_first :
  forall sp s c,
    first_char s = Some c -> sp c = false ->
    first_char (Py.rstrip_with sp s) = Some c.
Proof.
  intros sp [| a r] c Hf Hc; [discriminate |].
  cbn in Hf. injection Hf as ->.
  cbn [Py.rstrip_with]. destruct (Py.rstrip_with sp r); [now rewrite Hc | reflexivity].
Qed.

Lemma rstrip_last_char :
  forall sp s c, last_char (Py.rstrip_with sp s) = Some c -> sp c = false.
Proof.
  intros sp s. induction s as [| a r IH]; intros c; cbn [Py.rstrip_with].
  - discriminate.
  - destruct (Py.rstrip_with sp r) as [| b r'] eqn:Hr.
    + destruct (sp a) eqn:Ha; [discriminate |]. cbn. now intros [= <-].
    + cbn [last_char]. exact (IH c).
Qed.

Lemma last_char_snoc :
  forall s c, last_char (s ++ String c EmptyString) = Some c.
Proof.
  induction s as [| a r IH]; intro c; [reflexivity |].
  cbn [String.append last_char]. rewrite IH.
  destruct (r ++ String c EmptyString) eqn:Hr; [| reflexivity].
  destruct r; discriminate.
Qed.

Lemma first_char_app :
  forall s t c, first_char s = Some c -> first_char (s ++ t) = Some c.
Proof. intros [| a r] t c H; [discriminate | exact H]. Qed.

(** The first line starts with what is read so far. *)
Lemma splitlines_from_first :
  forall s cur c l rest,
    first_char cur = Some c ->
    Py.splitlines_from cur s = l :: rest ->
    first_char l = Some c.
Proof.
  induction s as [| a r IH]; intros cur c l rest Hc Heq; cbn [Py.splitlines_from] in Heq.
  - destruct cur; [discriminate |]. injection Heq as <- _. exact Hc.
  - destruct (Ascii.eqb a Py.CR).
    + destruct r as [| a' r'].
      * injection Heq as <- _. exact Hc.
      * destruct (Ascii.eqb a' Py.LF); injection Heq as <- _; exact Hc.
    + destruct (Py.is_linebreak a).
      * injection Heq as <- _. exact Hc.
      * apply (IH (cur ++ String a EmptyString) c l rest);
          [now apply first_char_app | exact Heq].
Qed.

Lemma last_cons_nonempty :
  forall (x : string) xs c,
    last_char (last xs EmptyString) = Some c ->
    last (x :: xs) EmptyString = last xs EmptyString.
Proof.
  intros x [| y ys] c H; [discriminate | reflexivity].
Qed.

(** The last line ends with the last character of the text, when that
    is no line boundary. *)
Lemma splitlines_from_last :
  forall n s cur c,
    String.length s <= n ->
    last_char s = Some c ->
    Py.is_linebreak c = false ->
    last_char (last (Py.splitlines_from cur s) EmptyString) = Some c.
Proof.
  induction n as [| n IH]; intros s cur c Hlen Hlast Hc.
  - destruct s; [discriminate | cbn in Hlen; lia].
  - destruct s as [| a r]; [discriminate |].
    cbn [String.length] in Hlen.
    assert (Hcr : forall x, Py.is_linebreak x = false -> Ascii.eqb x Py.CR = false).
    { intros x Hx. destruct (Ascii.eqb_spec x Py.CR) as [-> |]; [discriminate | reflexivity]. }
    destruct r as [| a' r'].
    + cbn in Hlast. injection Hlast as ->.
      cbn [Py.splitlines_from]. rewrite (Hcr c Hc), Hc.
      cbn [Py.splitlines_from].
      destruct (cur ++ String c EmptyString) eqn:Happ;
        [destruct cur; discriminate |].
      cbn [last]. rewrite <- Happ. apply last_char_snoc.
    + assert (Hlast' : last_char (String a' r') = Some c) by exact Hlast.
      remember (String a' r') as r0 eqn:Hr0.
      assert (Hlen' : String.length r0 <= n) by lia.
      assert (Hrec : forall cur',
                 last_char (last (Py.splitlines_from cur' r0) EmptyString) = Some c)
        by (intro cur'; now apply IH).
      cbn [Py.splitlines_from].
      destruct (Ascii.eqb a Py.CR).
      * rewrite Hr0. cbv beta iota. rewrite <- Hr0.
        destruct (Ascii.eqb_spec a' Py.LF) as [-> | Hlf].
        -- destruct r' as [| a'' r''].
           ++ subst r0. cbn in Hlast'. injection Hlast' as <-. discriminate.
           ++ assert (Hr : last_char (last (Py.splitlines_from EmptyString (String a'' r''))
                                          EmptyString) = Some c).
              { apply IH; [subst r0; cbn in *; lia | subst r0; exact Hlast' | exact Hc]. }
              now rewrite (last_cons_nonempty _ _ _ Hr).
        -- now rewrite (last_cons_nonempty _ _ _ (Hrec EmptyString)).
      * destruct (Py.is_linebreak a).
        -- now rewrite (last_cons_nonempty _ _ _ (Hrec EmptyString)).
        -- apply Hrec.
Qed.

Lemma last_char_nonempty :
  forall s, s <> EmptyString -> exists c, last_char s = Some c.
Proof.
  induction s as [| a r IH]; intro H; [contradiction |].
  destruct r as [| b r']; [now exists a |].
  destruct IH as (c & Hc); [discriminate |]. now exists c.
Qed.

Lemma strftime_folder :
  forall t,
    strftime "%Y-%m-%d_%H%M%S" t
    = Py.str_of_nat (year t) ++ "-" ++ zfill 2 (month t) ++ "-" ++ zfill 2 (day t) ++ "_"
        ++ zfill 2 (hour t) ++ zfill 2 (minute t) ++ zfill 2 (second t) ++ "".
Proof. reflexivity. Qed.

Lemma strftime_stamp :
  forall t,
    strftime "%Y-%m-%d %H:%M:%S" t
    = Py.str_of_nat (year t) ++ "-" ++ zfill 2 (month t) ++ "-" ++ zfill 2 (day t) ++ " "
        ++ zfill 2 (hour t) ++ ":" ++ zfill 2 (minute t) ++ ":" ++ zfill 2 (second t) ++ "".
Proof. reflexivity. Qed.

Lemma zfill_2_digits :
  forall n, n < 100 ->
    String.length (zfill 2 n) = 2 /\ digits_value 0 (zfill 2 n) = n.
Proof.
  assert (Hall : forallb (fun n => (String.length (zfill 2 n) =? 2)%nat
                                   && (digits_value 0 (zfill 2 n) =? n)%nat)
                         (seq 0 100) = true) by (vm_compute; reflexivity).
  intros n Hn. rewrite forallb_forall in Hall.
  specialize (Hall n). rewrite in_seq in Hall.
  apply andb_true_iff in Hall; [| lia].
  destruct Hall as [H1 H2]. split; now apply Nat.eqb_eq.
Qed.

Lemma uint_all_digits :
  forall d, all_digits (NilEmpty.string_of_uint d) = true.
Proof. induction d; cbn; auto. Qed.

Lemma all_digits_app :
  forall a b, all_digits (a ++ b) = all_digits a && all_digits b.
Proof.
  induction a as [| c a IH]; intro b; [reflexivity |].
  cbn. now rewrite IH, andb_assoc.
Qed.

Lemma str_of_nat_all_digits :
  forall n, all_digits (Py.str_of_nat n) = true.
Proof.
  intro n. unfold Py.str_of_nat, NilZero.string_of_uint.
  destruct (Nat.to_uint n) eqn:Hd; try reflexivity; rewrite <- Hd; apply uint_all_digits.
Qed.

Lemma zfill_all_digits :
  forall width n, all_digits (zfill width n) = true.
Proof.
  intros width n. unfold zfill. rewrite all_digits_app.
  apply andb_true_iff. split; [| apply str_of_nat_all_digits].
  induction (width - String.length (Py.str_of_nat n)) as [| k IH]; [reflexivity |].
  cbn [repeat String.concat]. destruct (repeat "0" k); [reflexivity |].
  rewrite !all_digits_app, IH. reflexivity.
Qed.

Lemma digits_value_uint :
  forall d acc, digits_value acc (NilEmpty.string_of_uint d) = Nat.of_uint_acc d acc.
Proof.
  induction d; intro acc; cbn [NilEmpty.string_of_uint digits_value Nat.of_uint_acc];
    [reflexivity | ..]; rewrite IHd; f_equal; rewrite Nat.tail_mul_spec;
    vm_compute (Py.ord _ - 48); lia.
Qed.

Lemma digits_value_zeros :
  forall k s,
    digits_value 0 (String.concat EmptyString (repeat "0" k) ++ s) = digits_value 0 s.
Proof.
  induction k as [| k IH]; intro s; [reflexivity |].
  cbn [repeat String.concat]. destruct (repeat "0" k) eqn:Hk.
  - reflexivity.
  - rewrite <- Hk in *. cbn [String.append digits_value]. exact (IH s).
Qed.

(** The digits of [str] and of [zfill] write the number. *)
Lemma str_of_nat_value :
  forall n, digits_value 0 (Py.str_of_nat n) = n.
Proof.
  intro n. unfold Py.str_of_nat, NilZero.string_of_uint.
  rewrite <- (Unsigned.of_to n) at 2. unfold Nat.of_uint.
  destruct (Nat.to_uint n); [reflexivity | ..];
    match goal with
    | |- _ = Nat.of_uint_acc ?x 0 => exact (digits_value_uint x 0)
    end.
Qed.

Lemma zfill_value :
  forall width n, digits_value 0 (zfill width n) = n.
Proof.
  intros width n. unfold zfill. rewrite digits_value_zeros. apply str_of_nat_value.
Qed.

(** Two runs of digits that are followed by the same mark. *)
Lemma digits_then_mark :
  forall a a' c b b',
    all_digits a = true -> all_digits a' = true -> is_digit c = false ->
    a ++ String c b = a' ++ String c b' -> a = a' /\ b = b'.
Proof.
  induction a as [| x a IH]; intros [| x' a'] c b b' Ha Ha' Hc Heq; cbn in *.
  - injection Heq as ->. auto.
  - injection Heq as -> _. apply andb_true_iff in Ha'. destruct Ha'. congruence.
  - injection Heq as -> _. apply andb_true_iff in Ha. destruct Ha. congruence.
  - injection Heq as -> Heq.
    apply andb_true_iff in Ha. apply andb_true_iff in Ha'.
    destruct (IH a' c b b') as [-> ->]; tauto || auto.
Qed.

Lemma str_of_nat_then_mark :
  forall n m c b b',
    is_digit c = false ->
    Py.str_of_nat n ++ String c b = Py.str_of_nat m ++ String c b' -> n = m /\ b = b'.
Proof.
  intros n m c b b' Hc Heq.
  destruct (digits_then_mark _ _ _ _ _ (str_of_nat_all_digits n)
              (str_of_nat_all_digits m) Hc Heq) as [Hz Hb].
  split; [| exact Hb].
  rewrite <- (str_of_nat_value n), <- (str_of_nat_value m). now rewrite Hz.
Qed.

Lemma zfill_then_mark :
  forall width n m c b b',
    is_digit c = false ->
    zfill width n ++ String c b = zfill width m ++ String c b' -> n = m /\ b = b'.
Proof.
  intros width n m c b b' Hc Heq.
  destruct (digits_then_mark _ _ _ _ _ (zfill_all_digits width n)
              (zfill_all_digits width m) Hc Heq) as [Hz Hb].
  split; [| exact Hb].
  rewrite <- (zfill_value width n), <- (zfill_value width m). now rewrite Hz.
Qed.

Lemma append_same_length :
  forall a a' b b',
    String.length a = String.length a' ->
    a ++ b = a' ++ b' -> a = a' /\ b = b'.
Proof.
  induction a as [| c a IH]; intros [| c' a'] b b' Hlen Heq; try discriminate.
  - auto.
  - cbn in Hlen. injection Hlen as Hlen. cbn in Heq. injection Heq as -> Heq.
    destruct (IH a' b b' Hlen Heq) as [-> ->]. auto.
Qed.

Lemma zfill_2_equal :
  forall n m b b',
    n < 100 -> m < 100 -> zfill 2 n ++ b = zfill 2 m ++ b' -> n = m /\ b = b'.
Proof.
  intros n m b b' Hn Hm Heq.
  destruct (zfill_2_digits n Hn) as [Ln Vn]. destruct (zfill_2_digits m Hm) as [Lm Vm].
  destruct (append_same_length _ _ _ _ (eq_trans Ln (eq_sym Lm)) Heq) as [Hz Hb].
  split; [| exact Hb]. rewrite <- Vn, <- Vm. now rewrite Hz.
Qed.

Lemma contains_char_app :
  forall c a b,
    Py.contains_char c (a ++ b) = Py.contains_char c a || Py.contains_char c b.
Proof.
  intros c a b. induction a as [| x a IH]; [reflexivity |].
  cbn. rewrite IH. now rewrite orb_assoc.
Qed.

Lemma endswith_contains :
  forall c s, Py.endswith_char c s = true -> Py.contains_char c s = true.
Proof.
  intros c s. induction s as [| x r IH]; [discriminate |].
  cbn [Py.endswith_char Py.contains_char]. destruct r as [| y r'].
  - intros ->. reflexivity.
  - intro H. rewrite (IH H). apply orb_true_r.
Qed.

Lemma endswith_app :
  forall c a b, b <> EmptyString -> Py.endswith_char c (a ++ b) = Py.endswith_char c b.
Proof.
  intros c a b Hb. induction a as [| x a IH]; [reflexivity |].
  cbn [String.append Py.endswith_char].
  destruct (a ++ b) eqn:Hab; [| exact IH].
  destruct a; [contradiction | discriminate].
Qed.

Lemma digits_have_no_slash :
  forall d, Py.contains_char Py.SLASH (NilEmpty.string_of_uint d) = false.
Proof. induction d; cbn; auto. Qed.

Lemma str_of_nat_shape :
  forall n, Py.str_of_nat n <> EmptyString
            /\ Py.contains_char Py.SLASH (Py.str_of_nat n) = false.
Proof.
  intro n. unfold Py.str_of_nat, NilZero.string_of_uint.
  destruct (Nat.to_uint n) as [| d | d | d | d | d | d | d | d | d | d];
    cbn [NilEmpty.string_of_uint]; (split; [discriminate |]);
    try reflexivity; cbn [Py.contains_char]; apply digits_have_no_slash.
Qed.

Lemma zfill_shape :
  forall width n, zfill width n <> EmptyString
                  /\ Py.contains_char Py.SLASH (zfill width n) = false.
Proof.
  intros width n. unfold zfill.
  destruct (str_of_nat_shape n) as [Hne Hno].
  set (k := width - String.length (Py.str_of_nat n)). clearbody k.
  assert (Hzeros : Py.contains_char Py.SLASH (String.concat EmptyString (repeat "0" k))
                   = false).
  { induction k as [| k IH]; [reflexivity |].
    cbn [repeat String.concat]. destruct (repeat "0" k) eqn:Hk; [reflexivity |].
    rewrite !contains_char_app, IH. reflexivity. }
  split.
  - destruct (String.concat EmptyString (repeat "0" k)); [exact Hne | discriminate].
  - now rewrite contains_char_app, Hzeros, Hno.
Qed.

Lemma str_app_assoc :
  forall a b c : string, (a ++ b) ++ c = a ++ (b ++ c).
Proof.
  induction a as [| x a IH]; intros b c; [reflexivity |].
  cbn. now rewrite IH.
Qed.

Lemma str_app_nil_r : forall a : string, a ++ "" = a.
Proof. induction a as [| x a IH]; [reflexivity | cbn; now rewrite IH]. Qed.

(** The path of the cleanup folder is not empty and does not end with
    a slash. *)
Lemma cleanup_path_shape :
  forall w root_dir,
    Py.is_empty (Run.cleanup_path w root_dir) = false
    /\ Py.endswith_char Py.SLASH (Run.cleanup_path w root_dir) = false.
Proof.
  intros w root_dir.
  assert (Hstart : Py.startswith_char Py.SLASH (Run.cleanup_folder w) = false)
    by reflexivity.
  assert (Hfolder : exists body,
             Run.cleanup_folder w = body ++ zfill 2 (second (Run.t0 w))).
  { unfold Run.cleanup_folder. rewrite strftime_folder, str_app_nil_r.
    rewrite <- !str_app_assoc. eexists. reflexivity. }
  destruct Hfolder as (body & Hbody).
  destruct (zfill_shape 2 (second (Run.t0 w))) as [Hne Hno].
  assert (Hend : forall x, Py.endswith_char Py.SLASH (x ++ Run.cleanup_folder w) = false).
  { intro x. rewrite Hbody, <- str_app_assoc, endswith_app by exact Hne.
    destruct (Py.endswith_char Py.SLASH (zfill 2 (second (Run.t0 w)))) eqn:He;
      [| reflexivity].
    apply endswith_contains in He. congruence. }
  assert (Hnonempty : forall x, Py.is_empty (x ++ Run.cleanup_folder w) = false).
  { intro x. destruct x; reflexivity. }
  unfold Run.cleanup_path, posixpath.join. rewrite Hstart.
  destruct (Py.is_empty root_dir || Py.endswith_char Py.SLASH root_dir).
  - split; [apply Hnonempty | apply Hend].
  - split.
    + destruct root_dir; reflexivity.
    + change (root_dir ++ String Py.SLASH (Run.cleanup_folder w))
        with (root_dir ++ (String Py.SLASH EmptyString ++ Run.cleanup_folder w)).
      rewrite <- str_app_assoc. apply Hend.
Qed.

Lemma head_without_sep :
  forall f, Py.contains_char Py.SLASH f = false -> posixpath.head_upto_last_sep f = EmptyString.
Proof.
  intros [| c r] H; [reflexivity |]. cbn [posixpath.head_upto_last_sep]. now rewrite H.
Qed.

Lemma head_upto_last_sep_app :
  forall x f,
    Py.contains_char Py.SLASH f = false ->
    posixpath.head_upto_last_sep (x ++ String Py.SLASH f) = x ++ String Py.SLASH EmptyString.
Proof.
  intros x f Hf. induction x as [| c x IH].
  - cbn [String.append posixpath.head_upto_last_sep Py.contains_char].
    rewrite Ascii.eqb_refl. cbn [orb]. now rewrite (head_without_sep f Hf).
  - cbn [String.append posixpath.head_upto_last_sep].
    assert (Hhas : Py.contains_char Py.SLASH (String c (x ++ String Py.SLASH f)) = true).
    { cbn [Py.contains_char]. rewrite contains_char_app. cbn [Py.contains_char].
      rewrite Ascii.eqb_refl. cbn [orb]. now rewrite !orb_true_r. }
    now rewrite Hhas, IH.
Qed.

Lemma all_sep_ends :
  forall s, posixpath.all_sep s = true ->
            s = EmptyString \/ Py.endswith_char Py.SLASH s = true.
Proof.
  induction s as [| c r IH]; intro H; [now left |]. right.
  cbn in H. apply andb_true_iff in H. destruct H as [Hc Hr].
  cbn [Py.endswith_char]. destruct r as [| b r']; [exact Hc |].
  destruct (IH Hr) as [? | He]; [discriminate | exact He].
Qed.

Lemma rstrip_snoc :
  forall sp x c,
    sp c = true ->
    Py.rstrip_with sp (x ++ String c EmptyString) = Py.rstrip_with sp x.
Proof.
  intros sp x c Hc. induction x as [| a x IH].
  - cbn. now rewrite Hc.
  - cbn [String.append Py.rstrip_with]. now rewrite IH.
Qed.

Lemma rstrip_slashes_id :
  forall x,
    Py.endswith_char Py.SLASH x = false ->
    Py.rstrip_with (fun c => Ascii.eqb c Py.SLASH) x = x.
Proof.
  induction x as [| a r IH]; intro H; [reflexivity |].
  cbn [Py.rstrip_with]. destruct r as [| b r'].
  - cbn in H |- *. now rewrite H.
  - rewrite IH by exact H. reflexivity.
Qed.

(** [dirname] takes the last component off. *)
Lemma dirname_of_child :
  forall x f,
    x <> EmptyString ->
    Py.endswith_char Py.SLASH x = false ->
    Py.contains_char Py.SLASH f = false ->
    posixpath.dirname (x ++ String Py.SLASH f) = x.
Proof.
  intros x f Hx Hend Hf. unfold posixpath.dirname.
  rewrite (head_upto_last_sep_app x f Hf).
  assert (Hne : Py.is_empty (x ++ String Py.SLASH EmptyString) = false)
    by (destruct x; reflexivity).
  assert (Hall : posixpath.all_sep (x ++ String Py.SLASH EmptyString) = false).
  { destruct (posixpath.all_sep (x ++ String Py.SLASH EmptyString)) eqn:Ha; [| reflexivity].
    exfalso. clear - Ha Hx Hend.
    induction x as [| a r IH]; [contradiction |].
    cbn in Ha. apply andb_true_iff in Ha. destruct Ha as [Hc Hr].
    destruct r as [| b r'].
    - cbn in Hend. congruence.
    - apply IH; [discriminate | exact Hend | exact Hr]. }
  rewrite Hne, Hall. cbn [negb andb].
  rewrite rstrip_snoc by apply Ascii.eqb_refl.
  now apply rstrip_slashes_id.
Qed.

Lemma no_slash_no_start :
  forall f, Py.contains_char Py.SLASH f = false -> Py.startswith_char Py.SLASH f = false.
Proof.
  intros [| c r] H; [reflexivity |]. cbn in H |- *.
  apply orb_false_iff in H. tauto.
Qed.

Lemma moved_entries_counted :
  forall w (xs : list (string * option raised)),
    length (filter (String.prefix "  MOVED: ") (map (log_entry w) xs))
    = length (filter (fun x => succeeded (snd x)) xs).
Proof.
  intros w xs. induction xs as [| [p [e |]] xs IH]; [reflexivity | |];
    cbn [map filter log_entry snd succeeded].
  - assert (H : String.prefix "  MOVED: " (error_line w p (Exc e)) = false) by reflexivity.
    rewrite H. exact IH.
  - assert (H : String.prefix "  MOVED: " (moved_line p) = true)
      by (destruct p; reflexivity).
    rewrite H. cbn [length]. now rewrite IH.
Qed.

Lemma succeeded_of_combine :
  forall (files : list string) (results : list (option raised)),
    length results = length files ->
    length (filter (fun x => succeeded (snd x)) (combine files results))
    = length (filter succeeded results).
Proof.
  induction files as [| f files IH]; intros [| r results] Hlen; try discriminate;
    [reflexivity |].
  cbn [length] in Hlen. injection Hlen as Hlen.
  cbn [combine filter snd]. destruct (succeeded r); cbn [length]; now rewrite IH.
Qed.

(** ** [dirname] gives the directory *)

Lemma head_split :
  forall p, exists f,
    p = posixpath.head_upto_last_sep p ++ f /\ Py.contains_char Py.SLASH f = false.
Proof.
  induction p as [| c r (f & Hf & Hno)].
  - exists EmptyString. auto.
  - cbn [posixpath.head_upto_last_sep].
    destruct (Py.contains_char Py.SLASH (String c r)) eqn:Hc.
    + exists f. split; [cbn; now rewrite <- Hf | exact Hno].
    + exists (String c r). auto.
Qed.

Lemma head_empty_no_sep :
  forall r, posixpath.head_upto_last_sep r = EmptyString ->
            Py.contains_char Py.SLASH r = false.
Proof.
  intros [| b r'] H; [reflexivity |].
  cbn [posixpath.head_upto_last_sep] in H.
  destruct (Py.contains_char Py.SLASH (String b r')); [discriminate | reflexivity].
Qed.

Lemma head_ends_with_sep :
  forall p, posixpath.head_upto_last_sep p = EmptyString
            \/ Py.endswith_char Py.SLASH (posixpath.head_upto_last_sep p) = true.
Proof.
  induction p as [| c r IH]; [now left |].
  cbn [posixpath.head_upto_last_sep].
  destruct (Py.contains_char Py.SLASH (String c r)) eqn:Hc; [right | now left].
  cbn [Py.endswith_char].
  destruct (posixpath.head_upto_last_sep r) as [| b t] eqn:Hh.
  - cbn [Py.contains_char] in Hc. rewrite (head_empty_no_sep r Hh), orb_false_r in Hc.
    exact Hc.
  - destruct IH as [? | IH]; [discriminate | exact IH].
Qed.

Lemma rstrip_slashes_split :
  forall s, exists seps,
    s = Py.rstrip_with (fun c => Ascii.eqb c Py.SLASH) s ++ seps
    /\ posixpath.all_sep seps = true
    /\ Py.endswith_char Py.SLASH (Py.rstrip_with (fun c => Ascii.eqb c Py.SLASH) s) = false.
Proof.
  induction s as [| a r (seps & Hr & Hall & Hend)].
  - exists EmptyString. auto.
  - cbn [Py.rstrip_with].
    destruct (Py.rstrip_with (fun c => Ascii.eqb c Py.SLASH) r) as [| b t] eqn:Hs.
    + cbn [String.append] in Hr. subst r. cbv beta.
      destruct (Ascii.eqb a Py.SLASH) eqn:Ha.
      * exists (String a seps). cbn [String.append posixpath.all_sep Py.endswith_char].
        rewrite Ha, Hall. auto.
      * exists seps. cbn [String.append Py.endswith_char]. rewrite Ha. auto.
    + exists seps. split; [rewrite Hr at 1; reflexivity | split; [exact Hall | exact Hend]].
Qed.

(** [posixpath.dirname] gives the directory of a path, for every path. *)
Lemma dirname_is_directory :
  forall path, directory_of (posixpath.dirname path) path.
Proof.
  intro path. unfold posixpath.dirname, directory_of.
  destruct (head_split path) as (f & Hf & Hno).
  destruct (head_ends_with_sep path) as [Hempty | Hends].
  - rewrite Hempty in *. cbn [Py.is_empty negb andb]. exists EmptyString, f.
    split; [exact Hf | split; [reflexivity | split; [exact Hno | left; split; reflexivity]]].
  - set (head := posixpath.head_upto_last_sep path) in *.
    destruct (posixpath.all_sep head) eqn:Hall.
    + cbn [negb]. rewrite andb_false_r. exists EmptyString, f.
      split; [exact Hf | split; [reflexivity | split; [exact Hno | left; split; auto]]].
    + assert (Hne : Py.is_empty head = false) by (destruct head; [discriminate | reflexivity]).
      rewrite Hne. cbn [negb andb].
      destruct (rstrip_slashes_split head) as (seps & Hsplit & Hseps & Hend).
      set (dir := Py.rstrip_with (fun c => Ascii.eqb c Py.SLASH) head) in *.
      exists seps, f. split; [| split; [exact Hseps | split; [exact Hno |]]].
      * rewrite Hf at 1. rewrite Hsplit at 1. apply str_app_assoc.
      * right. split; [| split; [| exact Hend]].
        -- intros ->. rewrite str_app_nil_r in Hsplit. rewrite <- Hsplit in Hend. congruence.
        -- intro Hd. rewrite Hd in Hsplit. cbn in Hsplit. rewrite <- Hsplit in Hseps. congruence.
Qed.

Lemma append_cases :
  forall a x r1 r2 : string,
    a ++ r1 = x ++ r2 ->
    (exists z, a = x ++ z /\ r2 = z ++ r1) \/ (exists z, x = a ++ z /\ r1 = z ++ r2).
Proof.
  induction a as [| c a IH]; intros x r1 r2 Heq.
  - right. exists x. auto.
  - destruct x as [| c' x].
    + left. exists (String c a). auto.
    + cbn in Heq. injection Heq as -> Heq.
      destruct (IH x r1 r2 Heq) as [(z & -> & Hz) | (z & -> & Hz)];
        [left | right]; exists z; auto.
Qed.

Lemma slashes_before_a_slash :
  forall seps f z y,
    posixpath.all_sep seps = true ->
    Py.contains_char Py.SLASH f = false ->
    seps ++ f = z ++ String Py.SLASH y ->
    posixpath.all_sep z = true.
Proof.
  induction seps as [| c seps IH]; intros f z y Hall Hno Heq.
  - cbn [String.append] in Heq. rewrite Heq, contains_char_app in Hno.
    cbn [Py.contains_char] in Hno. rewrite Ascii.eqb_refl in Hno.
    cbn [orb] in Hno. rewrite orb_true_r in Hno. discriminate.
  - destruct z as [| c' z]; [reflexivity |].
    cbn [posixpath.all_sep] in Hall. apply andb_true_iff in Hall.
    destruct Hall as [Hc Hall].
    cbn [String.append] in Heq. injection Heq as <- Heq.
    cbn [posixpath.all_sep]. rewrite Hc. exact (IH f z y Hall Hno Heq).
Qed.

(** Every directory on the way to a path is above the directory of the
    path, or is that directory. *)
Lemma directory_covers :
  forall dir path,
    directory_of dir path ->
    forall x y, path = x ++ String Py.SLASH y -> on_the_way_to dir x.
Proof.
  intros dir path (seps & f & Hpath & Hseps & Hno & _) x y Hxy.
  rewrite Hpath in Hxy.
  destruct (append_cases _ _ _ _ Hxy) as [(z & Hdir & Hz) | (z & Hx & Hz)].
  - destruct z as [| c z].
    + right. exists EmptyString. split; [reflexivity |].
      now rewrite Hdir, !str_app_nil_r.
    + cbn in Hz. injection Hz as <- _. left. now exists z.
  - right. exists z. split; [| exact Hx].
    exact (slashes_before_a_slash seps f z y Hseps Hno Hz).
Qed.

(** ** [strip] and [splitlines] on a text in three parts *)






















(** * The claims *)

(** C1. Every file that a run moves goes from [root_dir/p] to the join
    of the cleanup folder path and [p], for a file [p] of the list; for
    a relative [p] that is the path of the cleanup folder, a slash, and
    [p].  Just before the move, and after the creation of the cleanup
    folder, [os.makedirs] has succeeded on the directory of that
    destination: the destination is that directory, slashes and a last
    component, and every directory on the way to the destination is that
    directory or one above it. *)
Theorem moved_file_destination :
  forall w root_dir a b src dst,
    history (snd (Run.final w root_dir)) = (a ++ EvMove src dst None :: b)%list ->
    exists p a',
      src = posixpath.join root_dir p
      /\ dst = posixpath.join (Run.cleanup_path w root_dir) p
      /\ (Py.startswith_char Py.SLASH p = false ->
          dst = Run.cleanup_path w root_dir ++ String Py.SLASH p)
      /\ a = (a' ++ [EvMakedirs (posixpath.dirname dst) None])%list
      /\ directory_of (posixpath.dirname dst) dst
      /\ (forall x y, dst = x ++ String Py.SLASH y ->
                      on_the_way_to (posixpath.dirname dst) x)
      /\ In (EvMakedirs (Run.cleanup_path w root_dir) None) a'
      /\ exists out err,
           Run.enumeration w root_dir = Exited 0 out err
           /\ In p (Run.untracked_files w root_dir out).
Proof.
  intros w root_dir a b src dst Heq.
  assert (Hcore :
    exists p a',
      src = posixpath.join root_dir p
      /\ dst = posixpath.join (Run.cleanup_path w root_dir) p
      /\ a = (a' ++ [EvMakedirs (posixpath.dirname dst) None])%list
      /\ In (EvMakedirs (Run.cleanup_path w root_dir) None) a'
      /\ exists out err,
           Run.enumeration w root_dir = Exited 0 out err
           /\ In p (Run.untracked_files w root_dir out)).
  { destruct (final_shape w root_dir)
      as [e Hrev | e Hrev Hls | out err Hrev Hls Hnone | out err e Hrev Hls Hsome Hmk
          | out err evs lines e Hrev Hls Hsome Hmk Hrun
          | out err evs lines log k r Hrev Hls Hsome Hmk Hrun Hr];
      cbn [snd history] in Heq.
    - exfalso. assert (Hin : In (EvMove src dst None) (Run.h_check w root_dir))
        by (rewrite Heq; apply in_elt).
      apply h_check_pure in Hin. discriminate.
    - exfalso. assert (Hin : In (EvMove src dst None) (Run.h_enum w root_dir))
        by (rewrite Heq; apply in_elt).
      apply h_enum_pure in Hin. discriminate.
    - exfalso. assert (Hin : In (EvMove src dst None) (Run.h_enum w root_dir))
        by (rewrite Heq; apply in_elt).
      apply h_enum_pure in Hin. discriminate.
    - exfalso.
      assert (Hin : In (EvMove src dst None)
                       (Run.h_enum w root_dir
                          ++ [EvMakedirs (Run.cleanup_path w root_dir) (Some e)]))
        by (rewrite Heq; apply in_elt).
      apply in_app_or in Hin. destruct Hin as [Hin | [Hin | []]].
      + apply h_enum_pure in Hin. discriminate.
      + discriminate.
    - destruct (split_after_prefix _ _ _ _ _ Heq (h_loop_no_move w root_dir src dst None))
        as (a2 & Ha & Hevs).
      destruct (loop_run_move_preceded _ _ _ _ _ _ _ _ _ Hrun _ _ _ _ _ Hevs)
        as (p & a' & Hin & Hsrc & Hdst & Ha2).
      exists p, (Run.h_loop w root_dir ++ a')%list.
      repeat split; auto.
      + rewrite Ha, Ha2. now rewrite app_assoc.
      + apply in_or_app. left. apply h_loop_has_folder.
      + exists out, err. auto.
    - assert (Hpost : ~ In (EvMove src dst None)
                          [EvWrite (Run.log_file_path w root_dir)
                             (Py.str_join Py.nl (log ++ log_footer k)) r])
        by (intros [Hin | []]; discriminate).
      destruct (split_in_middle _ _ _ _ _ _ Heq
                  (h_loop_no_move w root_dir src dst None) Hpost)
        as (a2 & b2 & Ha & Hb & Hevs).
      destruct (loop_run_move_preceded _ _ _ _ _ _ _ _ _ Hrun _ _ _ _ _ Hevs)
        as (p & a' & Hin & Hsrc & Hdst & Ha2).
      exists p, (Run.h_loop w root_dir ++ a')%list.
      repeat split; auto.
      + rewrite Ha, Ha2. now rewrite app_assoc.
      + apply in_or_app. left. apply h_loop_has_folder.
      + exists out, err. auto. }
  destruct Hcore as (p & a' & Hsrc & Hdst & Ha & Hfolder & Hfound).
  exists p, a'.
  split; [exact Hsrc |]. split; [exact Hdst |]. split.
  { intro Hrel. rewrite Hdst.
    destruct (cleanup_path_shape w root_dir) as [Hne Hend].
    unfold posixpath.join. now rewrite Hrel, Hne, Hend. }
  split; [exact Ha |]. split; [apply dirname_is_directory |]. split.
  { intros x y Hxy. exact (directory_covers _ _ (dirname_is_directory dst) x y Hxy). }
  split; [exact Hfolder | exact Hfound].
Qed.

Lemma moved_file_destination_witness :
  let h := history (snd (Run.final Sim.w_demo ".")) in
  let dst := Sim.folder ++ "/scratch/notes.txt" in
  h = (firstn 6 h ++ EvMove "./scratch/notes.txt" dst None :: skipn 7 h)%list
  /\ exists p a',
       "./scratch/notes.txt" = posixpath.join "." p
       /\ dst = posixpath.join (Run.cleanup_path Sim.w_demo ".") p
       /\ (Py.startswith_char Py.SLASH p = false ->
           dst = Run.cleanup_path Sim.w_demo "." ++ String Py.SLASH p)
       /\ firstn 6 h = (a' ++ [EvMakedirs (posixpath.dirname dst) None])%list
       /\ directory_of (posixpath.dirname dst) dst
       /\ (forall x y, dst = x ++ String Py.SLASH y ->
                       on_the_way_to (posixpath.dirname dst) x)
       /\ In (EvMakedirs (Run.cleanup_path Sim.w_demo ".") None) a'
       /\ exists out err,
            Run.enumeration Sim.w_demo "." = Exited 0 out err
            /\ In p (Run.untracked_files Sim.w_demo "." out).
Proof.
  cbv zeta.
  assert (H : history (snd (Run.final Sim.w_demo "."))
              = (firstn 6 (history (snd (Run.final Sim.w_demo ".")))
                   ++ EvMove "./scratch/notes.txt" (Sim.folder ++ "/scratch/notes.txt") None
                   :: skipn 7 (history (snd (Run.final Sim.w_demo "."))))%list)
    by (vm_compute; reflexivity).
  split; [exact H |].
  exact (moved_file_destination Sim.w_demo "." _ _ _ _ H).
Defined.

(** ** The loop goes on after a move that fails *)

(** C2. When the loop has reached a file [p] and moving it raises [e],
    the exception is caught: the entry [  ERROR: p - Failed to move.
    Reason: ] followed by the message of [e] is printed and added to
    the log, the count of moved files stays, and the loop goes on with
    the files after [p]; the entry is in the log with which the loop
    ends. *)
Theorem move_error_is_isolated :
  forall w root_dir cleanup_path pre p rest log n st log1 n1 st1 e,
    let source_path := posixpath.join root_dir p in
    let target_path := posixpath.join cleanup_path p in
    let target_dir := posixpath.dirname target_path in
    let line := "  ERROR: " ++ p ++ " - Failed to move. Reason: " ++ exc_str e in
    move_files w root_dir cleanup_path pre log n st = (Returned (log1, n1), st1) ->
    makedirs w (history st1) target_dir = None ->
    move w (history st1 ++ [EvMakedirs target_dir None]) source_path target_path = Some e ->
    move_files w root_dir cleanup_path (pre ++ p :: rest) log n st
    = move_files w root_dir cleanup_path rest (log1 ++ [line]) n1
        (mkState (history st1 ++ [EvMakedirs target_dir None;
                                  EvMove source_path target_path (Some e)])
                 (console st1 ++ [line]))
    /\ forall log' n' st',
         move_files w root_dir cleanup_path (pre ++ p :: rest) log n st
         = (Returned (log', n'), st') ->
         In line log'.
Proof.
  intros w root_dir cleanup_path pre p rest log n st log1 n1 st1 e
         source_path target_path target_dir line Hpre Hmk Hmv.
  assert (Hstep :
    move_files w root_dir cleanup_path (pre ++ p :: rest) log n st
    = move_files w root_dir cleanup_path rest (log1 ++ [line]) n1
        (mkState (history st1 ++ [EvMakedirs target_dir None;
                                  EvMove source_path target_path (Some e)])
                 (console st1 ++ [line]))).
  { rewrite move_files_app, Hpre.
    exact (move_files_cons_failed _ _ _ _ _ _ _ _ _ Hmk Hmv). }
  split; [exact Hstep |].
  intros log' n' st' Hend. rewrite Hstep in Hend.
  destruct (move_files_keeps_log _ _ _ _ _ _ _ _ _ _ Hend) as (more & ->).
  apply in_or_app. left. apply in_or_app. right. now left.
Qed.

Lemma move_error_is_isolated_witness :
  let w := Sim.w_demo in
  let pre := ["scratch/notes.txt"] in
  let log1 := ["  MOVED: scratch/notes.txt"] in
  let st1 := snd (move_files w "." Sim.folder pre [] 0 initial) in
  let line := "  ERROR: b.txt - Failed to move. Reason: [Errno 13] Permission denied" in
  move_files w "." Sim.folder pre [] 0 initial = (Returned (log1, 1), st1)
  /\ makedirs w (history st1) (posixpath.dirname (posixpath.join Sim.folder "b.txt")) = None
  /\ move w (history st1 ++ [EvMakedirs (posixpath.dirname (posixpath.join Sim.folder "b.txt")) None])
          (posixpath.join "." "b.txt") (posixpath.join Sim.folder "b.txt") = Some Sim.perm
  /\ (move_files w "." Sim.folder (pre ++ "b.txt" :: ["gone"]) [] 0 initial
      = move_files w "." Sim.folder ["gone"] (log1 ++ [line]) 1
          (mkState (history st1
                      ++ [EvMakedirs (posixpath.dirname (posixpath.join Sim.folder "b.txt")) None;
                          EvMove (posixpath.join "." "b.txt")
                                 (posixpath.join Sim.folder "b.txt") (Some Sim.perm)])
                   (console st1 ++ [line]))
      /\ forall log' n' st',
           move_files w "." Sim.folder (pre ++ "b.txt" :: ["gone"]) [] 0 initial
           = (Returned (log', n'), st') ->
           In line log').
Proof.
  cbv zeta.
  split; [vm_compute; reflexivity |].
  split; [vm_compute; reflexivity |].
  split; [vm_compute; reflexivity |].
  apply (move_error_is_isolated Sim.w_demo "." Sim.folder ["scratch/notes.txt"] "b.txt"
           ["gone"] [] 0 initial [moved_line "scratch/notes.txt"] 1
           (snd (move_files Sim.w_demo "." Sim.folder ["scratch/notes.txt"] [] 0 initial))
           Sim.perm);
    vm_compute; reflexivity.
Defined.

(** C3. When the repository check fails -- git exits with a status other
    than zero, or is not found -- the run ends with an error message on
    the console and has made no call that changes the file system: its
    history holds the reading of the clock and the run of git, no
    directory is created and no file is moved. *)
Theorem failed_check_touches_nothing :
  forall w root_dir,
    check_failed (Run.repo_check w root_dir) ->
    fst (Run.final w root_dir) = Returned tt
    /\ history (snd (Run.final w root_dir)) = Run.h_check w root_dir
    /\ (forall ev, In ev (history (snd (Run.final w root_dir))) -> mutates ev = false)
    /\ console (snd (Run.final w root_dir))
       = List.app (Run.c_start w root_dir)
            (match Run.repo_check w root_dir with
               | Exited _ _ err =>
                   [ "Error executing git command. Ensure you are in a Git repository and have Git installed. Details: ['git', 'rev-parse', '--is-inside-work-tree']";
                     "Stderr: " ++ Py.bytes_repr (Py.strip_bytes err) ]
               | SpawnFailed _ =>
                   [ "Error: The 'git' command was not found. Please ensure Git is installed and in your system's PATH." ]
               end).
Proof.
  intros w root_dir Hfail.
  assert (Hfinal :
    exists e, run_error git_rev_parse false (Run.repo_check w root_dir) = Some e
              /\ Run.final w root_dir
                 = (Returned tt,
                    mkState (Run.h_check w root_dir)
                            (Run.c_start w root_dir ++ outer_report w e))).
  { unfold Run.final, find_and_move_untracked_files, try_except.
    rewrite relocate_prefix.
    destruct (run_error git_rev_parse false (Run.repo_check w root_dir)) as [e |] eqn:Hrev.
    - exists e. split; [reflexivity |]. now rewrite outer_clauses_total.
    - exfalso. destruct (run_error_none _ _ _ Hrev) as (o & er & Heq).
      rewrite Heq in Hfail. now apply Hfail. }
  destruct Hfinal as (e & Hrev & ->). cbn [fst snd history console].
  repeat split.
  - apply h_check_pure.
  - f_equal. unfold run_error in Hrev.
    destruct (Run.repo_check w root_dir) as [rc o er | r].
    + destruct (rc =? 0)%Z; [discriminate |]. injection Hrev as <-. reflexivity.
    + injection Hrev as <-. cbn in Hfail. cbn [outer_report]. now rewrite Hfail.
Qed.

Lemma failed_check_touches_nothing_witness :
  check_failed (Run.repo_check Sim.w_norepo ".")
  /\ fst (Run.final Sim.w_norepo ".") = Returned tt
  /\ history (snd (Run.final Sim.w_norepo ".")) = Run.h_check Sim.w_norepo "."
  /\ (forall ev, In ev (history (snd (Run.final Sim.w_norepo "."))) -> mutates ev = false)
  /\ console (snd (Run.final Sim.w_norepo "."))
     = [ "Cleanup folder will be: ./cleanup_untracked_2025-03-09_120005";
         "Error executing git command. Ensure you are in a Git repository and have Git installed. Details: ['git', 'rev-parse', '--is-inside-work-tree']";
         "Stderr: b'fatal: not a git repository'" ].
Proof.
  assert (H : check_failed (Run.repo_check Sim.w_norepo "."))
    by (vm_compute; discriminate).
  split; [exact H |].
  exact (failed_check_touches_nothing Sim.w_norepo "." H).
Defined.

(** C4. When the check and the enumeration succeed and no line of the
    output names a regular file, the run prints that there is nothing to
    clean up and returns; its history holds the reading of the clock and
    the two runs of git, so that no folder is created. *)
Theorem nothing_found_creates_nothing :
  forall w root_dir o e out err,
    Run.repo_check w root_dir = Exited 0 o e ->
    Run.enumeration w root_dir = Exited 0 out err ->
    Run.untracked_files w root_dir out = [] ->
    Run.final w root_dir
    = (Returned tt,
       mkState (Run.h_enum w root_dir)
               (Run.c_enum w root_dir
                  ++ ["No untracked and non-ignored files found to clean up."]))
    /\ forall ev, In ev (Run.h_enum w root_dir) -> mutates ev = false.
Proof.
  intros w root_dir o e out err Hrev Hls Hnone.
  split; [| apply h_enum_pure].
  unfold Run.final, find_and_move_untracked_files, try_except.
  rewrite relocate_prefix, Hrev, Hls. cbn [run_error Z.eqb]. cbv zeta.
  rewrite Hnone. reflexivity.
Qed.

Lemma nothing_found_creates_nothing_witness :
  Run.repo_check Sim.w_clean "." = Exited 0 "true" ""
  /\ Run.enumeration Sim.w_clean "." = Exited 0 "" ""
  /\ Run.untracked_files Sim.w_clean "." "" = []
  /\ Run.final Sim.w_clean "."
     = (Returned tt,
        mkState (Run.h_enum Sim.w_clean ".")
                (Run.c_enum Sim.w_clean "."
                   ++ ["No untracked and non-ignored files found to clean up."]))
  /\ forall ev, In ev (Run.h_enum Sim.w_clean ".") -> mutates ev = false.
Proof.
  split; [reflexivity |]. split; [reflexivity |]. split; [reflexivity |].
  apply (nothing_found_creates_nothing Sim.w_clean "." "true" "" "" "");
    reflexivity.
Defined.

(** C5. When writing the log file raises [e], the write is the last call
    of the run: the failure is printed, nothing is moved after it (the
    moves of the history are those made before the write), and the two
    closing lines are printed all the same; the run returns. *)
Theorem failed_log_write_undoes_nothing :
  forall w root_dir path content e,
    In (EvWrite path content (Some e)) (history (snd (Run.final w root_dir))) ->
    exists h lines,
      history (snd (Run.final w root_dir)) = (h ++ [EvWrite path content (Some e)])%list
      /\ path = Run.log_file_path w root_dir
      /\ (forall src dst r,
            In (EvMove src dst r) (history (snd (Run.final w root_dir)))
            <-> In (EvMove src dst r) h)
      /\ console (snd (Run.final w root_dir))
         = List.app lines
             [ Py.nl ++ "FATAL ERROR: Could not write log file to " ++ path
                 ++ ". Reason: " ++ exc_str e;
               Py.nl ++ "Cleanup complete!";
               "All untracked, non-ignored files have been moved to: "
                 ++ Run.cleanup_folder w ]
      /\ fst (Run.final w root_dir) = Returned tt.
Proof.
  intros w root_dir path content e Hin.
  destruct (final_shape w root_dir)
    as [e0 Hrev | e0 Hrev Hls | out err Hrev Hls Hnone | out err e0 Hrev Hls Hsome Hmk
        | out err evs lines e0 Hrev Hls Hsome Hmk Hrun
        | out err evs lines log k r Hrev Hls Hsome Hmk Hrun Hr];
    cbn [fst snd history console] in *.
  - apply h_check_pure in Hin. discriminate.
  - apply h_enum_pure in Hin. discriminate.
  - apply h_enum_pure in Hin. discriminate.
  - apply in_app_or in Hin. destruct Hin as [Hin | [Hin | []]].
    + apply h_enum_pure in Hin. discriminate.
    + discriminate.
  - apply in_app_or in Hin. destruct Hin as [Hin | Hin].
    + now apply h_loop_no_write in Hin.
    + apply (loop_run_events_kind _ _ _ _ _ _ _ _ _ Hrun) in Hin. contradiction.
  - apply in_app_or in Hin. destruct Hin as [Hin | Hin].
    { now apply h_loop_no_write in Hin. }
    apply in_app_or in Hin. destruct Hin as [Hin | [Hin | []]].
    { apply (loop_run_events_kind _ _ _ _ _ _ _ _ _ Hrun) in Hin. contradiction. }
    injection Hin as Hpath Hcontent Hres.
    exists (Run.h_loop w root_dir ++ evs)%list,
           (c_loop w root_dir (Run.untracked_files w root_dir out) ++ lines)%list.
    subst path content. rewrite Hres. cbn [write_report].
    split; [now rewrite app_assoc |].
    split; [reflexivity |].
    split; [| split; [now rewrite <- app_assoc | reflexivity]].
    intros src dst r0. rewrite app_assoc. split; intro Hmv.
    + apply in_app_or in Hmv. destruct Hmv as [Hmv | [Hmv | []]];
        [exact Hmv | discriminate].
    + apply in_or_app. now left.
Qed.

Lemma failed_log_write_undoes_nothing_witness :
  let st := snd (Run.final Sim.w_logfail ".") in
  let path := Sim.folder ++ "/cleanup_log.txt" in
  let content :=
    match last (history st) (EvNow Sim.noon) with
    | EvWrite _ c _ => c
    | _ => EmptyString
    end in
  In (EvWrite path content (Some Sim.enospc)) (history st)
  /\ exists h lines,
       history st = (h ++ [EvWrite path content (Some Sim.enospc)])%list
       /\ path = Run.log_file_path Sim.w_logfail "."
       /\ (forall src dst r, In (EvMove src dst r) (history st) <-> In (EvMove src dst r) h)
       /\ console st
          = List.app lines
              [ Py.nl ++ "FATAL ERROR: Could not write log file to " ++ path
                  ++ ". Reason: " ++ exc_str Sim.enospc;
                Py.nl ++ "Cleanup complete!";
                "All untracked, non-ignored files have been moved to: "
                  ++ Run.cleanup_folder Sim.w_logfail ]
       /\ fst (Run.final Sim.w_logfail ".") = Returned tt.
Proof.
  cbv zeta.
  assert (H : In (EvWrite (Sim.folder ++ "/cleanup_log.txt")
                    match last (history (snd (Run.final Sim.w_logfail "."))) (EvNow Sim.noon) with
                    | EvWrite _ c _ => c
                    | _ => EmptyString
                    end (Some Sim.enospc))
                 (history (snd (Run.final Sim.w_logfail ".")))).
  { vm_compute. do 9 right. left. reflexivity. }
  split; [exact H |].
  exact (failed_log_write_undoes_nothing Sim.w_logfail "." _ _ _ H).
Defined.

(** C6. For a command other than [sweep], [main] does nothing: it does
    not call the relocation, prints nothing, raises nothing, and leaves
    the state as it is. *)
Theorem other_command_does_nothing :
  forall w args st,
    command args <> "sweep" ->
    main w args st = (Returned tt, st).
Proof.
  intros w args st Hneq. unfold main.
  destruct (String.eqb_spec (command args) "sweep") as [Heq | _];
    [contradiction | reflexivity].
Qed.

Lemma other_command_does_nothing_witness :
  command (mkNamespace "status") <> "sweep"
  /\ main Sim.w_demo (mkNamespace "status") initial = (Returned tt, initial).
Proof.
  assert (H : command (mkNamespace "status") <> "sweep") by discriminate.
  split; [exact H |].
  exact (other_command_does_nothing Sim.w_demo (mkNamespace "status") initial H).
Defined.

(** ** The lines of the enumeration *)




(** ** The log *)

(** C8. The text that a run writes (or tries to write) to the log file
    is the entries of the log joined by newlines.  The head gives the
    title, [Date/Time of Execution: ] with the time read when the log is
    started, as year-month-day hour:minute:second, [Source Directory: ]
    with the absolute path of the root, [Destination Directory: ] with
    the name of the cleanup folder, and [Total Files Found: ] with the
    number of files found.  Then comes one entry per file found, in
    order: [  MOVED: ] and the relative path when its move succeeded,
    [  ERROR: ], the relative path, [ - Failed to move. Reason: ] and
    the message when it raised.  The foot gives [Total Files
    Successfully Moved: ] with the number of moves of the run that
    succeeded. *)
Theorem log_report_structure :
  forall w root_dir path content r,
    In (EvWrite path content r) (history (snd (Run.final w root_dir))) ->
    exists out err results,
      let files := Run.untracked_files w root_dir out in
      let moved := moved_count (history (snd (Run.final w root_dir))) in
      let t := Run.t1 w root_dir in
      let t0 := Run.t0 w in
      Run.enumeration w root_dir = Exited 0 out err
      /\ length results = length files
      /\ path = Run.log_file_path w root_dir
      /\ content
         = Py.str_join Py.nl
           (List.app
           [ "--- Git Untracked File Cleanup Log ---";
           "Date/Time of Execution: "
           ++ Py.str_of_nat (year t) ++ "-" ++ zfill 2 (month t) ++ "-" ++ zfill 2 (day t)
           ++ " " ++ zfill 2 (hour t) ++ ":" ++ zfill 2 (minute t) ++ ":"
           ++ zfill 2 (second t);
           "Source Directory: " ++ abspath w (Run.h_loop w root_dir) root_dir;
           "Destination Directory: " ++ "cleanup_untracked_"
           ++ Py.str_of_nat (year t0) ++ "-" ++ zfill 2 (month t0) ++ "-"
           ++ zfill 2 (day t0) ++ "_" ++ zfill 2 (hour t0) ++ zfill 2 (minute t0)
           ++ zfill 2 (second t0);
           "Total Files Found: " ++ Py.str_of_nat (length files) ++ Py.nl;
           "Files Moved (Original Path -> Cleanup Path):" ++ Py.nl ]
           (List.app (map (fun x => match snd x with
           | None => "  MOVED: " ++ fst x
           | Some e => "  ERROR: " ++ fst x
           ++ " - Failed to move. Reason: " ++ exc_str e
           end)
           (combine files results))
           [ Py.nl ++ "Total Files Successfully Moved: " ++ Py.str_of_nat moved;
           "--- End of Log ---" ]))
      /\ moved = length (filter succeeded results)
      /\ history (snd (Run.final w root_dir))
         = (Run.h_loop w root_dir
              ++ flat_map (file_events root_dir (Run.cleanup_path w root_dir))
                          (combine files results)
              ++ [EvWrite path content r])%list.
Proof.
  intros w root_dir path content r Hin.
  destruct (final_shape w root_dir)
    as [e0 Hrev | e0 Hrev Hls | out err Hrev Hls Hnone | out err e0 Hrev Hls Hsome Hmk
        | out err evs lines e0 Hrev Hls Hsome Hmk Hrun
        | out err evs lines log k r0 Hrev Hls Hsome Hmk Hrun Hr];
    cbn [fst snd history console] in *.
  - apply h_check_pure in Hin. discriminate.
  - apply h_enum_pure in Hin. discriminate.
  - apply h_enum_pure in Hin. discriminate.
  - apply in_app_or in Hin. destruct Hin as [Hin | [Hin | []]].
    + apply h_enum_pure in Hin. discriminate.
    + discriminate.
  - apply in_app_or in Hin. destruct Hin as [Hin | Hin].
    + now apply h_loop_no_write in Hin.
    + apply (loop_run_events_kind _ _ _ _ _ _ _ _ _ Hrun) in Hin. contradiction.
  - apply in_app_or in Hin. destruct Hin as [Hin | Hin].
    { now apply h_loop_no_write in Hin. }
    apply in_app_or in Hin. destruct Hin as [Hin | [Hin | []]].
    { apply (loop_run_events_kind _ _ _ _ _ _ _ _ _ Hrun) in Hin. contradiction. }
    injection Hin as Hpath Hcontent Hres.
    destruct (loop_run_completed _ _ _ _ _ _ _ _ _ Hrun _ _ eq_refl)
      as (results & Hlen & Hevs & Hlog & Hk & Hm).
    cbn [plus] in Hk, Hm.
    assert (Hmoved :
      moved_count (Run.h_loop w root_dir ++ evs
                     ++ [EvWrite (Run.log_file_path w root_dir)
                           (Py.str_join Py.nl (log ++ log_footer k)) r0]) = k).
    { rewrite !moved_count_app, moved_count_h_loop, <- Hm. cbn. lia. }
    exists out, err, results. cbv zeta. rewrite Hmoved.
    subst path content r0.
    split; [exact Hls |]. split; [exact Hlen |]. split; [reflexivity |].
    split; [| split; [exact Hk | now rewrite Hevs]].
    rewrite Hlog, <- app_assoc. f_equal.
    unfold log_header, log_footer, Run.stamp, Run.source, Run.cleanup_folder.
    rewrite strftime_stamp, strftime_folder, !str_app_nil_r.
    f_equal. f_equal. apply map_ext. intros [p0 [e1 |]]; reflexivity.
Qed.

Lemma log_report_structure_witness :
  let st := snd (Run.final Sim.w_demo ".") in
  let content :=
    match last (history st) (EvNow Sim.noon) with
    | EvWrite _ c _ => c
    | _ => EmptyString
    end in
  In (EvWrite (Sim.folder ++ "/cleanup_log.txt") content None) (history st)
  /\ exists out err results,
       let files := Run.untracked_files Sim.w_demo "." out in
       let moved := moved_count (history st) in
       let t := Run.t1 Sim.w_demo "." in
       let t0 := Run.t0 Sim.w_demo in
       Run.enumeration Sim.w_demo "." = Exited 0 out err
       /\ length results = length files
       /\ Sim.folder ++ "/cleanup_log.txt" = Run.log_file_path Sim.w_demo "."
       /\ content
          = Py.str_join Py.nl
            (List.app
            [ "--- Git Untracked File Cleanup Log ---";
            "Date/Time of Execution: "
            ++ Py.str_of_nat (year t) ++ "-" ++ zfill 2 (month t) ++ "-" ++ zfill 2 (day t)
            ++ " " ++ zfill 2 (hour t) ++ ":" ++ zfill 2 (minute t) ++ ":"
            ++ zfill 2 (second t);
            "Source Directory: " ++ abspath Sim.w_demo (Run.h_loop Sim.w_demo ".") ".";
            "Destination Directory: " ++ "cleanup_untracked_"
            ++ Py.str_of_nat (year t0) ++ "-" ++ zfill 2 (month t0) ++ "-"
            ++ zfill 2 (day t0) ++ "_" ++ zfill 2 (hour t0) ++ zfill 2 (minute t0)
            ++ zfill 2 (second t0);
            "Total Files Found: " ++ Py.str_of_nat (length files) ++ Py.nl;
            "Files Moved (Original Path -> Cleanup Path):" ++ Py.nl ]
            (List.app (map (fun x => match snd x with
            | None => "  MOVED: " ++ fst x
            | Some e => "  ERROR: " ++ fst x
            ++ " - Failed to move. Reason: " ++ exc_str e
            end)
            (combine files results))
            [ Py.nl ++ "Total Files Successfully Moved: " ++ Py.str_of_nat moved;
            "--- End of Log ---" ]))
       /\ moved = length (filter succeeded results)
       /\ history st
          = (Run.h_loop Sim.w_demo "."
               ++ flat_map (file_events "." (Run.cleanup_path Sim.w_demo "."))
                           (combine files results)
               ++ [EvWrite (Sim.folder ++ "/cleanup_log.txt") content None])%list.
Proof.
  cbv zeta.
  assert (H : In (EvWrite (Sim.folder ++ "/cleanup_log.txt")
                    match last (history (snd (Run.final Sim.w_demo "."))) (EvNow Sim.noon) with
                    | EvWrite _ c _ => c
                    | _ => EmptyString
                    end None)
                 (history (snd (Run.final Sim.w_demo ".")))).
  { vm_compute. do 9 right. left. reflexivity. }
  split; [exact H |].
  exact (log_report_structure Sim.w_demo "." _ _ _ H).
Defined.

(** The log of the run in the world [Sim.w_demo], as it is written. *)
Example log_of_demo :
  forall path content r,
    last (history (snd (Run.final Sim.w_demo "."))) (EvNow Sim.noon)
    = EvWrite path content r ->
    content
    = Py.str_join Py.nl
        [ "--- Git Untracked File Cleanup Log ---";
          "Date/Time of Execution: 2025-03-09 12:00:05";
          "Source Directory: /repo";
          "Destination Directory: cleanup_untracked_2025-03-09_120005";
          "Total Files Found: 2" ++ Py.nl;
          "Files Moved (Original Path -> Cleanup Path):" ++ Py.nl;
          "  MOVED: scratch/notes.txt";
          "  ERROR: b.txt - Failed to move. Reason: [Errno 13] Permission denied";
          Py.nl ++ "Total Files Successfully Moved: 1";
          "--- End of Log ---" ].
Proof.
  intros path content r H. vm_compute in H. injection H as _ <- _. reflexivity.
Qed.

(** ** The outer handlers *)

(** C9. From any state the relocation function returns, whatever the
    calls of the script raise; and an exception that leaves the body of
    the function and has no clause of its own (it is neither a
    [CalledProcessError] nor a [FileNotFoundError]) is handled by the
    last clause, which prints it with its message. *)
Theorem unexpected_errors_are_caught :
  forall w root_dir st,
    (exists st', find_and_move_untracked_files w root_dir st = (Returned tt, st'))
    /\ forall e st',
         relocate w root_dir st = (Raised e, st') ->
         has_specific_clause e = false ->
         find_and_move_untracked_files w root_dir st
         = (Returned tt,
            mkState (history st')
                    (console st' ++ ["An unexpected error occurred: " ++ str_exn w e])).
Proof.
  intros w root_dir st. split.
  - rewrite find_and_move_unfold.
    destruct (relocate w root_dir st) as [[[] | e] st']; eauto.
  - intros e st' Hraise Hnone. rewrite find_and_move_unfold, Hraise.
    destruct e as [cmd rc stderr | [cls msg]]; [discriminate |].
    destruct cls; [discriminate | reflexivity].
Qed.

Lemma unexpected_errors_are_caught_witness :
  let st' := snd (relocate Sim.w_dirperm "." initial) in
  relocate Sim.w_dirperm "." initial = (Raised (Exc Sim.perm), st')
  /\ has_specific_clause (Exc Sim.perm) = false
  /\ find_and_move_untracked_files Sim.w_dirperm "." initial
     = (Returned tt,
        mkState (history st')
                (console st' ++ ["An unexpected error occurred: [Errno 13] Permission denied"])).
Proof.
  cbv zeta.
  assert (H1 : relocate Sim.w_dirperm "." initial
               = (Raised (Exc Sim.perm), snd (relocate Sim.w_dirperm "." initial)))
    by (vm_compute; reflexivity).
  assert (H2 : has_specific_clause (Exc Sim.perm) = false) by reflexivity.
  split; [exact H1 |]. split; [exact H2 |].
  exact (proj2 (unexpected_errors_are_caught Sim.w_dirperm "." initial) _ _ H1 H2).
Defined.

(** ** A directory of the cleanup folder that cannot be created *)

(** When the creation of the directory of a destination raises [e], after
    the cleanup folder was made, that call is the last of the run: no
    file after it is tried, nothing is written, and the run returns; the
    console ends with what the outer clauses print for [e]. *)
Lemma failed_directory_abandons_batch :
  forall w root_dir a b d e,
    history (snd (Run.final w root_dir)) = (a ++ EvMakedirs d (Some e) :: b)%list ->
    In (EvMakedirs (Run.cleanup_path w root_dir) None) a ->
    b = []
    /\ fst (Run.final w root_dir) = Returned tt
    /\ (forall path content r,
          ~ In (EvWrite path content r) (history (snd (Run.final w root_dir))))
    /\ exists lines,
         console (snd (Run.final w root_dir)) = (lines ++ outer_report w (Exc e))%list.
Proof.
  intros w root_dir a b d e Heq Hfolder.
  destruct (final_shape w root_dir)
    as [e0 Hrev | e0 Hrev Hls | out err Hrev Hls Hnone | out err e0 Hrev Hls Hsome Hmk
        | out err evs lines e0 Hrev Hls Hsome Hmk Hrun
        | out err evs lines log k r0 Hrev Hls Hsome Hmk Hrun Hr];
    cbn [fst snd history console] in *.
  - exfalso. assert (Hin : In (EvMakedirs d (Some e)) (Run.h_check w root_dir))
      by (rewrite Heq; apply in_elt).
    apply h_check_pure in Hin. discriminate.
  - exfalso. assert (Hin : In (EvMakedirs d (Some e)) (Run.h_enum w root_dir))
      by (rewrite Heq; apply in_elt).
    apply h_enum_pure in Hin. discriminate.
  - exfalso. assert (Hin : In (EvMakedirs d (Some e)) (Run.h_enum w root_dir))
      by (rewrite Heq; apply in_elt).
    apply h_enum_pure in Hin. discriminate.
  - exfalso.
    assert (Hin : In (EvMakedirs (Run.cleanup_path w root_dir) None)
                     (Run.h_enum w root_dir
                        ++ [EvMakedirs (Run.cleanup_path w root_dir) (Some e0)]))
      by (rewrite Heq; apply in_or_app; now left).
    apply in_app_or in Hin. destruct Hin as [Hin | [Hin | []]].
    + apply h_enum_pure in Hin. discriminate.
    + discriminate.
  - destruct (split_after_prefix _ _ _ _ _ Heq (h_loop_no_failure w root_dir d e))
      as (a2 & Ha & Hevs).
    destruct (loop_run_makedirs_failed _ _ _ _ _ _ _ _ _ Hrun _ _ _ _ Hevs)
      as (Hb & Hr).
    injection Hr as ->.
    split; [exact Hb |]. split; [reflexivity |]. split.
    + intros path content r Hin. apply in_app_or in Hin. destruct Hin as [Hin | Hin].
      * now apply h_loop_no_write in Hin.
      * apply (loop_run_events_kind _ _ _ _ _ _ _ _ _ Hrun) in Hin. contradiction.
    + exists (c_loop w root_dir (Run.untracked_files w root_dir out) ++ lines)%list.
      now rewrite app_assoc.
  - exfalso.
    assert (Hpost : ~ In (EvMakedirs d (Some e))
                        [EvWrite (Run.log_file_path w root_dir)
                           (Py.str_join Py.nl (log ++ log_footer k)) r0])
      by (intros [Hin | []]; discriminate).
    destruct (split_in_middle _ _ _ _ _ _ Heq
                (h_loop_no_failure w root_dir d e) Hpost)
      as (a2 & b2 & Ha & Hb & Hevs).
    destruct (loop_run_makedirs_failed _ _ _ _ _ _ _ _ _ Hrun _ _ _ _ Hevs)
      as (_ & Hraised).
    discriminate.
Qed.

(** C10 at the world [Sim.w_dirgone]: the cleanup folder is made, [a/x]
    is the first file, and the creation of the directory [a] of the
    cleanup folder raises a [FileNotFoundError].  The run stops there,
    as the claim says, but the error is not printed by the last clause:
    the clause of [FileNotFoundError] takes it, and the console says
    that git was not found. *)
Lemma failed_directory_reported_as_missing_git :
  let st := snd (Run.final Sim.w_dirgone ".") in
  let d := posixpath.dirname (posixpath.join (Run.cleanup_path Sim.w_dirgone ".") "a/x") in
  history st
  = (Run.h_loop Sim.w_dirgone "." ++ [EvMakedirs d (Some Sim.enoent)])%list
  /\ In (EvMakedirs (Run.cleanup_path Sim.w_dirgone ".") None) (Run.h_loop Sim.w_dirgone ".")
  /\ ~ In ("An unexpected error occurred: " ++ str_exn Sim.w_dirgone (Exc Sim.enoent))
          (console st)
  /\ last (console st) EmptyString
     = "Error: The 'git' command was not found. Please ensure Git is installed and in your system's PATH.".
Proof.
  cbv zeta.
  split; [vm_compute; reflexivity |].
  split; [apply h_loop_has_folder |].
  split; [| vm_compute; reflexivity].
  vm_compute. intuition discriminate.
Qed.

(** * More of the script *)

(** ** The runs that stop before the loop *)

(** When the check passes and the enumeration fails, the run prints the
    error and returns, and has changed nothing: its history holds the
    reading of the clock and the two runs of git.  A non-zero exit is
    reported with the command line and the captured error text, which is
    a [str] here and is printed as it is. *)
Theorem failed_enumeration_touches_nothing :
  forall w root_dir o e,
    Run.repo_check w root_dir = Exited 0 o e ->
    enumeration_failed (Run.enumeration w root_dir) ->
    fst (Run.final w root_dir) = Returned tt
    /\ history (snd (Run.final w root_dir)) = Run.h_enum w root_dir
    /\ (forall ev, In ev (history (snd (Run.final w root_dir))) -> mutates ev = false)
    /\ console (snd (Run.final w root_dir))
       = List.app (Run.c_enum w root_dir)
           (match Run.enumeration w root_dir with
            | Exited _ _ err =>
                [ "Error executing git command. Ensure you are in a Git repository and have Git installed. Details: ['git', 'ls-files', '--others', '--exclude-standard', '--full-name']";
                  "Stderr: " ++ Py.strip err ]
            | SpawnFailed r => outer_report w (Exc r)
            end).
Proof.
  intros w root_dir o e Hrev Hfail.
  assert (Hfinal :
    exists x, run_error git_ls_files true (Run.enumeration w root_dir) = Some x
              /\ Run.final w root_dir
                 = (Returned tt,
                    mkState (Run.h_enum w root_dir)
                            (Run.c_enum w root_dir ++ outer_report w x))).
  { unfold Run.final, find_and_move_untracked_files, try_except.
    rewrite relocate_prefix, Hrev. cbn [run_error Z.eqb].
    destruct (run_error git_ls_files true (Run.enumeration w root_dir)) as [x |] eqn:Hls.
    - exists x. split; [reflexivity |]. now rewrite outer_clauses_total.
    - exfalso. destruct (run_error_none _ _ _ Hls) as (out & err & Heq).
      rewrite Heq in Hfail. now apply Hfail. }
  destruct Hfinal as (x & Hls & ->). cbn [fst snd history console].
  split; [reflexivity |]. split; [reflexivity |]. split; [apply h_enum_pure |].
  f_equal. unfold run_error in Hls.
  destruct (Run.enumeration w root_dir) as [rc out err | r].
  - destruct (rc =? 0)%Z; [discriminate |]. injection Hls as <-. reflexivity.
  - injection Hls as <-. reflexivity.
Qed.

Lemma failed_enumeration_touches_nothing_witness :
  Run.repo_check Cases.w_lsfail "." = Exited 0 "true" ""
  /\ enumeration_failed (Run.enumeration Cases.w_lsfail ".")
  /\ fst (Run.final Cases.w_lsfail ".") = Returned tt
  /\ history (snd (Run.final Cases.w_lsfail ".")) = Run.h_enum Cases.w_lsfail "."
  /\ (forall ev, In ev (history (snd (Run.final Cases.w_lsfail "."))) -> mutates ev = false)
  /\ console (snd (Run.final Cases.w_lsfail "."))
     = [ "Cleanup folder will be: ./cleanup_untracked_2025-03-09_120005";
         "-> Finding untracked, non-ignored files...";
         "Error executing git command. Ensure you are in a Git repository and have Git installed. Details: ['git', 'ls-files', '--others', '--exclude-standard', '--full-name']";
         "Stderr: error: index file corrupt" ].
Proof.
  assert (H1 : Run.repo_check Cases.w_lsfail "." = Exited 0 "true" "") by reflexivity.
  assert (H2 : enumeration_failed (Run.enumeration Cases.w_lsfail "."))
    by (vm_compute; discriminate).
  split; [exact H1 |]. split; [exact H2 |].
  exact (failed_enumeration_touches_nothing Cases.w_lsfail "." _ _ H1 H2).
Defined.

(** When files are found and the cleanup folder cannot be made, that
    call is the only change tried: nothing is moved and nothing is
    written; the exception goes to the outer clauses and the run
    returns. *)
Theorem failed_cleanup_folder_moves_nothing :
  forall w root_dir o e out err x,
    Run.repo_check w root_dir = Exited 0 o e ->
    Run.enumeration w root_dir = Exited 0 out err ->
    Run.untracked_files w root_dir out <> [] ->
    makedirs w (Run.h_enum w root_dir) (Run.cleanup_path w root_dir) = Some x ->
    Run.final w root_dir
    = (Returned tt,
       mkState (Run.h_enum w root_dir ++ [EvMakedirs (Run.cleanup_path w root_dir) (Some x)])
               (c_found w root_dir (Run.untracked_files w root_dir out)
                  ++ outer_report w (Exc x)))
    /\ (forall src dst r,
          ~ In (EvMove src dst r) (history (snd (Run.final w root_dir))))
    /\ (forall path content r,
          ~ In (EvWrite path content r) (history (snd (Run.final w root_dir)))).
Proof.
  intros w root_dir o e out err x Hrev Hls Hsome Hmk.
  assert (Hfinal :
    Run.final w root_dir
    = (Returned tt,
       mkState (Run.h_enum w root_dir ++ [EvMakedirs (Run.cleanup_path w root_dir) (Some x)])
               (c_found w root_dir (Run.untracked_files w root_dir out)
                  ++ outer_report w (Exc x)))).
  { unfold Run.final, find_and_move_untracked_files, try_except.
    rewrite relocate_prefix, Hrev, Hls. cbn [run_error Z.eqb]. cbv zeta.
    destruct (Run.untracked_files w root_dir out) as [| f files] eqn:Hfiles;
      [now elim Hsome |].
    rewrite bind_unfold. unfold print at 1. cbn [history console].
    rewrite move_and_log_run. cbn [history console]. rewrite Hmk.
    rewrite outer_clauses_total. reflexivity. }
  rewrite Hfinal. cbn [snd history].
  split; [reflexivity |]. split.
  - intros src dst r Hin. apply in_app_or in Hin. destruct Hin as [Hin | [Hin | []]].
    + apply h_enum_pure in Hin. discriminate.
    + discriminate.
  - intros path content r Hin. apply in_app_or in Hin. destruct Hin as [Hin | [Hin | []]].
    + apply h_enum_pure in Hin. discriminate.
    + discriminate.
Qed.

Lemma failed_cleanup_folder_moves_nothing_witness :
  Run.repo_check Cases.w_nofolder "." = Exited 0 "true" ""
  /\ Run.enumeration Cases.w_nofolder "." = Exited 0 Sim.listing ""
  /\ Run.untracked_files Cases.w_nofolder "." Sim.listing <> []
  /\ makedirs Cases.w_nofolder (Run.h_enum Cases.w_nofolder ".")
       (Run.cleanup_path Cases.w_nofolder ".") = Some Sim.perm
  /\ last (console (snd (Run.final Cases.w_nofolder "."))) EmptyString
     = "An unexpected error occurred: [Errno 13] Permission denied"
  /\ (forall src dst r,
        ~ In (EvMove src dst r) (history (snd (Run.final Cases.w_nofolder "."))))
  /\ (forall path content r,
        ~ In (EvWrite path content r) (history (snd (Run.final Cases.w_nofolder ".")))).
Proof.
  assert (H1 : Run.repo_check Cases.w_nofolder "." = Exited 0 "true" "") by reflexivity.
  assert (H2 : Run.enumeration Cases.w_nofolder "." = Exited 0 Sim.listing "") by reflexivity.
  assert (H3 : Run.untracked_files Cases.w_nofolder "." Sim.listing <> [])
    by (vm_compute; discriminate).
  assert (H4 : makedirs Cases.w_nofolder (Run.h_enum Cases.w_nofolder ".")
                 (Run.cleanup_path Cases.w_nofolder ".") = Some Sim.perm)
    by (vm_compute; reflexivity).
  split; [exact H1 |]. split; [exact H2 |]. split; [exact H3 |]. split; [exact H4 |].
  destruct (failed_cleanup_folder_moves_nothing Cases.w_nofolder "." _ _ _ _ _ H1 H2 H3 H4)
    as (Hfinal & Hmv & Hwr).
  split; [rewrite Hfinal; vm_compute; reflexivity |].
  split; [exact Hmv | exact Hwr].
Defined.

Lemma failed_directory_abandons_batch_witness :
  let st := snd (Run.final Sim.w_dirperm ".") in
  let d := posixpath.dirname (posixpath.join (Run.cleanup_path Sim.w_dirperm ".") "a/x") in
  history st = (Run.h_loop Sim.w_dirperm "." ++ EvMakedirs d (Some Sim.perm) :: [])%list
  /\ In (EvMakedirs (Run.cleanup_path Sim.w_dirperm ".") None) (Run.h_loop Sim.w_dirperm ".")
  /\ fst (Run.final Sim.w_dirperm ".") = Returned tt
  /\ (forall path content r, ~ In (EvWrite path content r) (history st))
  /\ exists lines,
       console st
       = (lines ++ ["An unexpected error occurred: [Errno 13] Permission denied"])%list.
Proof.
  cbv zeta.
  assert (H1 : history (snd (Run.final Sim.w_dirperm "."))
               = (Run.h_loop Sim.w_dirperm "."
                    ++ EvMakedirs (posixpath.dirname
                                     (posixpath.join (Run.cleanup_path Sim.w_dirperm ".") "a/x"))
                         (Some Sim.perm) :: [])%list)
    by (vm_compute; reflexivity).
  assert (H2 : In (EvMakedirs (Run.cleanup_path Sim.w_dirperm ".") None)
                  (Run.h_loop Sim.w_dirperm "."))
    by apply h_loop_has_folder.
  split; [exact H1 |]. split; [exact H2 |].
  destruct (failed_directory_abandons_batch Sim.w_dirperm "." _ _ _ _ H1 H2)
    as (_ & Hret & Hwr & Hcon).
  split; [exact Hret |]. split; [exact Hwr | exact Hcon].
Defined.

(** ** What a run may change *)

(** Every call of a run that changes the file system is one of four:
    it makes the cleanup folder, makes the directory of the destination
    of a file found, moves a file found to the same relative path under
    the cleanup folder, or writes the log file of the cleanup folder.
    Nothing is removed, and nothing else is written. *)
Theorem run_is_confined :
  forall w root_dir ev,
    In ev (history (snd (Run.final w root_dir))) ->
    mutates ev = true ->
    confined w root_dir (found w root_dir) ev.
Proof.
  intros w root_dir ev Hin Hmut. unfold found.
  destruct (final_shape w root_dir)
    as [e0 Hrev | e0 Hrev Hls | out err Hrev Hls Hnone | out err e0 Hrev Hls Hsome Hmk
        | out err evs lines e0 Hrev Hls Hsome Hmk Hrun
        | out err evs lines log k r0 Hrev Hls Hsome Hmk Hrun Hr];
    cbn [fst snd history console] in *.
  - apply h_check_pure in Hin. congruence.
  - apply h_enum_pure in Hin. congruence.
  - apply h_enum_pure in Hin. congruence.
  - apply in_app_or in Hin. destruct Hin as [Hin | [<- | []]].
    + apply h_enum_pure in Hin. congruence.
    + constructor.
  - rewrite Hls. apply in_app_or in Hin. destruct Hin as [Hin | Hin].
    + unfold_stages. cbn [In app] in Hin.
      destruct Hin as [<- | [<- | [<- | [<- | [<- | []]]]]];
        try discriminate. constructor.
    + exact (loop_run_confined _ _ _ _ _ _ _ _ Hrun _ Hin).
  - rewrite Hls. apply in_app_or in Hin. destruct Hin as [Hin | Hin].
    + unfold_stages. cbn [In app] in Hin.
      destruct Hin as [<- | [<- | [<- | [<- | [<- | []]]]]];
        try discriminate. constructor.
    + apply in_app_or in Hin. destruct Hin as [Hin | [<- | []]].
      * exact (loop_run_confined _ _ _ _ _ _ _ _ Hrun _ Hin).
      * constructor.
Qed.

Lemma run_is_confined_witness :
  let ev := EvMove "./b.txt" (Sim.folder ++ "/b.txt") (Some Sim.perm) in
  In ev (history (snd (Run.final Sim.w_demo ".")))
  /\ mutates ev = true
  /\ confined Sim.w_demo "." (found Sim.w_demo ".") ev.
Proof.
  cbv zeta.
  assert (H1 : In (EvMove "./b.txt" (Sim.folder ++ "/b.txt") (Some Sim.perm))
                  (history (snd (Run.final Sim.w_demo "."))))
    by (vm_compute; do 8 right; left; reflexivity).
  assert (H2 : mutates (EvMove "./b.txt" (Sim.folder ++ "/b.txt") (Some Sim.perm)) = true)
    by reflexivity.
  split; [exact H1 |]. split; [exact H2 |].
  exact (run_is_confined Sim.w_demo "." _ H1 H2).
Defined.

(** ** The account of the files *)

(** In a run that comes to write the log, every file found was tried
    once: the moves that succeeded and the moves that raised add up to
    the number of files found, and every file found has its move in the
    history, from its place under the root to the same relative path
    under the cleanup folder. *)
Theorem every_file_is_accounted_for :
  forall w root_dir path content r,
    In (EvWrite path content r) (history (snd (Run.final w root_dir))) ->
    moved_count (history (snd (Run.final w root_dir)))
    + failed_count (history (snd (Run.final w root_dir)))
    = length (found w root_dir)
    /\ forall p,
         In p (found w root_dir) ->
         exists res,
           In (EvMove (posixpath.join root_dir p)
                      (posixpath.join (Run.cleanup_path w root_dir) p) res)
              (history (snd (Run.final w root_dir))).
Proof.
  intros w root_dir path content r Hin. unfold found.
  destruct (final_shape w root_dir)
    as [e0 Hrev | e0 Hrev Hls | out err Hrev Hls Hnone | out err e0 Hrev Hls Hsome Hmk
        | out err evs lines e0 Hrev Hls Hsome Hmk Hrun
        | out err evs lines log k r0 Hrev Hls Hsome Hmk Hrun Hr];
    cbn [fst snd history console] in *.
  - apply h_check_pure in Hin. discriminate.
  - apply h_enum_pure in Hin. discriminate.
  - apply h_enum_pure in Hin. discriminate.
  - apply in_app_or in Hin. destruct Hin as [Hin | [Hin | []]].
    + apply h_enum_pure in Hin. discriminate.
    + discriminate.
  - apply in_app_or in Hin. destruct Hin as [Hin | Hin].
    + now apply h_loop_no_write in Hin.
    + apply (loop_run_events_kind _ _ _ _ _ _ _ _ _ Hrun) in Hin. contradiction.
  - clear Hin. rewrite Hls.
    destruct (loop_run_completed _ _ _ _ _ _ _ _ _ Hrun _ _ eq_refl)
      as (results & Hlen & Hevs & _).
    split.
    + rewrite !moved_count_app, !failed_count_app,
        moved_count_h_loop, failed_count_h_loop, Hevs.
      pose proof (counts_of_file_events root_dir (Run.cleanup_path w root_dir)
                    (combine (Run.untracked_files w root_dir out) results)) as Hsum.
      rewrite length_combine, Hlen, Nat.min_id in Hsum.
      unfold moved_count at 2, failed_count at 2. cbn [filter length]. lia.
    + intros p Hp.
      destruct (in_combine_left _ _ _ results p Hlen Hp) as (res & Hres).
      exists res. apply in_or_app. right. apply in_or_app. left.
      rewrite Hevs. apply in_flat_map. exists (p, res). split; [exact Hres |].
      cbn [file_events In]. auto.
Qed.

Lemma every_file_is_accounted_for_witness :
  let st := snd (Run.final Sim.w_demo ".") in
  let content :=
    match last (history st) (EvNow Sim.noon) with
    | EvWrite _ c _ => c
    | _ => EmptyString
    end in
  In (EvWrite (Sim.folder ++ "/cleanup_log.txt") content None) (history st)
  /\ moved_count (history st) + failed_count (history st) = length (found Sim.w_demo ".")
  /\ forall p,
       In p (found Sim.w_demo ".") ->
       exists res,
         In (EvMove (posixpath.join "." p)
                    (posixpath.join (Run.cleanup_path Sim.w_demo ".") p) res)
            (history st).
Proof.
  cbv zeta.
  assert (H : In (EvWrite (Sim.folder ++ "/cleanup_log.txt")
                    match last (history (snd (Run.final Sim.w_demo "."))) (EvNow Sim.noon) with
                    | EvWrite _ c _ => c
                    | _ => EmptyString
                    end None)
                 (history (snd (Run.final Sim.w_demo ".")))).
  { vm_compute. do 9 right. left. reflexivity. }
  split; [exact H |].
  exact (every_file_is_accounted_for Sim.w_demo "." _ _ _ H).
Defined.

(** ** The runs that come to the log *)

(** When the check passes, files are found, and no creation of a
    directory raises, the run goes through the whole list and ends with
    the write of the log file, whatever the moves do: its history is the
    stages before the loop, the two calls of every file found, in order,
    and the write. *)
Theorem run_reaches_the_log :
  forall w root_dir o e,
    Run.repo_check w root_dir = Exited 0 o e ->
    found w root_dir <> [] ->
    (forall d x, ~ In (EvMakedirs d (Some x)) (history (snd (Run.final w root_dir)))) ->
    exists results content r,
      length results = length (found w root_dir)
      /\ history (snd (Run.final w root_dir))
         = (Run.h_loop w root_dir
              ++ flat_map (file_events root_dir (Run.cleanup_path w root_dir))
                          (combine (found w root_dir) results)
              ++ [EvWrite (Run.log_file_path w root_dir) content r])%list.
Proof.
  intros w root_dir o e Hcheck Hfound Hnofail. unfold found in *.
  destruct (final_shape w root_dir)
    as [e0 Hrev | e0 Hrev Hls | out err Hrev Hls Hnone | out err e0 Hrev Hls Hsome Hmk
        | out err evs lines e0 Hrev Hls Hsome Hmk Hrun
        | out err evs lines log k r0 Hrev Hls Hsome Hmk Hrun Hr];
    cbn [fst snd history console] in *.
  - rewrite Hcheck in Hrev. discriminate.
  - exfalso. unfold run_error in Hls.
    destruct (Run.enumeration w root_dir) as [rc out err | x].
    + destruct rc; [discriminate | now elim Hfound | now elim Hfound].
    + now elim Hfound.
  - rewrite Hls in Hfound. contradiction.
  - exfalso. apply (Hnofail (Run.cleanup_path w root_dir) e0).
    apply in_or_app. right. now left.
  - exfalso.
    assert (Hlast : exists a d x, evs = (a ++ [EvMakedirs d (Some x)])%list).
    { clear - Hrun. remember (Raised e0) as res eqn:Hres.
      induction Hrun as [| p rest ? ? ? ? ? ? IH | p rest ? ? ? ? ? ? ? IH | p rest ? ? x].
      - discriminate.
      - destruct (IH Hres) as (a & d & x & ->).
        exists (EvMakedirs (posixpath.dirname (posixpath.join (Run.cleanup_path w root_dir) p)) None
                  :: EvMove (posixpath.join root_dir p)
                            (posixpath.join (Run.cleanup_path w root_dir) p) None :: a), d, x.
        reflexivity.
      - destruct (IH Hres) as (a & d & x & ->).
        exists (EvMakedirs (posixpath.dirname (posixpath.join (Run.cleanup_path w root_dir) p)) None
                  :: EvMove (posixpath.join root_dir p)
                            (posixpath.join (Run.cleanup_path w root_dir) p) (Some e) :: a), d, x.
        reflexivity.
      - exists [], (posixpath.dirname (posixpath.join (Run.cleanup_path w root_dir) p)), x.
        reflexivity. }
    destruct Hlast as (a & d & x & ->).
    apply (Hnofail d x). apply in_or_app. right. apply in_or_app. right. now left.
  - rewrite Hls.
    destruct (loop_run_completed _ _ _ _ _ _ _ _ _ Hrun _ _ eq_refl)
      as (results & Hlen & Hevs & _).
    exists results, (Py.str_join Py.nl (log ++ log_footer k)), r0.
    split; [exact Hlen | now rewrite Hevs].
Qed.

Lemma run_reaches_the_log_witness :
  Run.repo_check Sim.w_demo "." = Exited 0 "true" ""
  /\ found Sim.w_demo "." <> []
  /\ (forall d x, ~ In (EvMakedirs d (Some x)) (history (snd (Run.final Sim.w_demo "."))))
  /\ exists results content r,
       length results = length (found Sim.w_demo ".")
       /\ history (snd (Run.final Sim.w_demo "."))
          = (Run.h_loop Sim.w_demo "."
               ++ flat_map (file_events "." (Run.cleanup_path Sim.w_demo "."))
                           (combine (found Sim.w_demo ".") results)
               ++ [EvWrite (Run.log_file_path Sim.w_demo ".") content r])%list.
Proof.
  assert (H1 : Run.repo_check Sim.w_demo "." = Exited 0 "true" "") by reflexivity.
  assert (H2 : found Sim.w_demo "." <> []) by (vm_compute; discriminate).
  assert (H3 : forall d x,
             ~ In (EvMakedirs d (Some x)) (history (snd (Run.final Sim.w_demo ".")))).
  { intros d x. vm_compute. intuition discriminate. }
  split; [exact H1 |]. split; [exact H2 |]. split; [exact H3 |].
  exact (run_reaches_the_log Sim.w_demo "." _ _ H1 H2 H3).
Defined.

(** ** The output of the enumeration, stripped as a whole *)

(** When git prints nothing, or nothing but white space, no line is left
    to check: whatever the file system holds, the run finds no file,
    says so, and changes nothing. *)
Theorem blank_output_finds_nothing :
  forall w root_dir o e out err,
    Run.repo_check w root_dir = Exited 0 o e ->
    Run.enumeration w root_dir = Exited 0 out err ->
    Py.is_blank out = true ->
    Run.untracked_files w root_dir out = []
    /\ Run.final w root_dir
       = (Returned tt,
          mkState (Run.h_enum w root_dir)
                  (Run.c_enum w root_dir
                     ++ ["No untracked and non-ignored files found to clean up."])).
Proof.
  intros w root_dir o e out err Hrev Hls Hblank.
  assert (Hnone : Run.untracked_files w root_dir out = []).
  { unfold Run.untracked_files, Py.strip, Py.strip_with.
    now rewrite (lstrip_blank out Hblank). }
  split; [exact Hnone |].
  unfold Run.final, find_and_move_untracked_files, try_except.
  rewrite relocate_prefix, Hrev, Hls. cbn [run_error Z.eqb]. cbv zeta.
  rewrite Hnone. reflexivity.
Qed.

Lemma blank_output_finds_nothing_witness :
  Run.repo_check Cases.w_spaces "." = Exited 0 "true" ""
  /\ Run.enumeration Cases.w_spaces "." = Exited 0 (" " ++ Py.nl ++ Py.nl) ""
  /\ Py.is_blank (" " ++ Py.nl ++ Py.nl) = true
  /\ isfile Cases.w_spaces (Run.h_enum Cases.w_spaces ".") "./ " = true
  /\ Run.untracked_files Cases.w_spaces "." (" " ++ Py.nl ++ Py.nl) = []
  /\ Run.final Cases.w_spaces "."
     = (Returned tt,
        mkState (Run.h_enum Cases.w_spaces ".")
                (Run.c_enum Cases.w_spaces "."
                   ++ ["No untracked and non-ignored files found to clean up."])).
Proof.
  split; [reflexivity |]. split; [reflexivity |]. split; [reflexivity |].
  split; [reflexivity |].
  apply (blank_output_finds_nothing Cases.w_spaces "." "true" "" _ ""); reflexivity.
Defined.

(** The output is stripped as one text before it is split, so that the
    first line checked never starts with white space and the last never
    ends with it, and neither is empty: a name that has white space at
    such an end is not looked up as it is. *)
Theorem ends_of_the_listing_are_trimmed :
  forall stdout l rest,
    Py.splitlines (Py.strip stdout) = l :: rest ->
    (exists c, first_char l = Some c /\ Py.isspace c = false)
    /\ (exists c, last_char (last (l :: rest) EmptyString) = Some c
                  /\ Py.isspace c = false).
Proof.
  intros stdout l rest Heq.
  destruct (Py.strip stdout) as [| a r] eqn:Hs; [discriminate |].
  assert (Ha : Py.isspace a = false).
  { unfold Py.strip, Py.strip_with in Hs.
    destruct (Py.lstrip_with Py.isspace stdout) as [| b t] eqn:Hl; [discriminate |].
    assert (Hb : Py.isspace b = false)
      by (apply (lstrip_first_char Py.isspace stdout); now rewrite Hl).
    pose proof (rstrip_keeps_first Py.isspace (String b t) b eq_refl Hb) as Hf.
    rewrite Hs in Hf. cbn in Hf. now injection Hf as ->. }
  assert (Hnl : forall c, Py.isspace c = false -> Py.is_linebreak c = false).
  { intros c Hc. destruct (Py.is_linebreak c) eqn:Hb; [| reflexivity].
    apply linebreak_is_space in Hb. congruence. }
  split.
  - exists a. split; [| exact Ha].
    unfold Py.splitlines in Heq. cbn [Py.splitlines_from] in Heq.
    assert (Hcr : Ascii.eqb a Py.CR = false).
    { destruct (Ascii.eqb_spec a Py.CR) as [-> |]; [discriminate | reflexivity]. }
    rewrite Hcr, (Hnl a Ha) in Heq.
    exact (splitlines_from_first r (String a EmptyString) a l rest eq_refl Heq).
  - destruct (last_char_nonempty (String a r)) as (c & Hc); [discriminate |].
    assert (Hsp : Py.isspace c = false).
    { apply (rstrip_last_char Py.isspace (Py.lstrip_with Py.isspace stdout)).
      unfold Py.strip, Py.strip_with in Hs. now rewrite Hs. }
    exists c. split; [| exact Hsp].
    rewrite <- Heq. unfold Py.splitlines.
    apply (splitlines_from_last (String.length (String a r))); auto.
Qed.

Lemma ends_of_the_listing_are_trimmed_witness :
  let stdout := " notes.txt" ++ Py.nl ++ "z.txt " ++ Py.nl in
  Py.splitlines (Py.strip stdout) = "notes.txt" :: ["z.txt"]
  /\ (exists c, first_char "notes.txt" = Some c /\ Py.isspace c = false)
  /\ (exists c, last_char (last ("notes.txt" :: ["z.txt"]) EmptyString) = Some c
                /\ Py.isspace c = false).
Proof.
  cbv zeta.
  assert (H : Py.splitlines (Py.strip (" notes.txt" ++ Py.nl ++ "z.txt " ++ Py.nl))
              = "notes.txt" :: ["z.txt"]) by reflexivity.
  split; [exact H |].
  exact (ends_of_the_listing_are_trimmed _ _ _ H).
Defined.

(** ** The name of the cleanup folder *)

(** Within the range of the clock, the name of the cleanup folder
    determines the second at which the run started: two runs that read
    different times make folders of different names. *)
Theorem folder_name_tells_the_time :
  forall w1 w2,
    is_datetime (Run.t0 w1) -> is_datetime (Run.t0 w2) ->
    Run.cleanup_folder w1 = Run.cleanup_folder w2 ->
    Run.t0 w1 = Run.t0 w2.
Proof.
  intros w1 w2. unfold Run.cleanup_folder.
  destruct (Run.t0 w1) as [y1 mo1 d1 h1 mi1 s1].
  destruct (Run.t0 w2) as [y2 mo2 d2 h2 mi2 s2].
  unfold is_datetime. cbn [year month day hour minute second].
  intros (Hy1 & Hmo1 & Hd1 & Hh1 & Hmi1 & Hs1) (Hy2 & Hmo2 & Hd2 & Hh2 & Hmi2 & Hs2) Heq.
  rewrite !strftime_folder in Heq. cbn [year month day hour minute second] in Heq.
  apply append_same_length in Heq; [| reflexivity]. destruct Heq as [_ Heq].
  apply str_of_nat_then_mark in Heq; [| reflexivity]. destruct Heq as [Ey Heq].
  apply zfill_then_mark in Heq; [| reflexivity]. destruct Heq as [Emo Heq].
  apply zfill_then_mark in Heq; [| reflexivity]. destruct Heq as [Ed Heq].
  apply zfill_2_equal in Heq; [| lia | lia]. destruct Heq as [Eh Heq].
  apply zfill_2_equal in Heq; [| lia | lia]. destruct Heq as [Emi Heq].
  apply zfill_2_equal in Heq; [| lia | lia]. destruct Heq as [Es _].
  congruence.
Qed.

Lemma folder_name_tells_the_time_witness :
  is_datetime (Run.t0 Sim.w_demo) /\ is_datetime (Run.t0 Sim.w_clean)
  /\ Run.cleanup_folder Sim.w_demo = Run.cleanup_folder Sim.w_clean
  /\ Run.t0 Sim.w_demo = Run.t0 Sim.w_clean.
Proof.
  assert (H1 : is_datetime (Run.t0 Sim.w_demo)) by (vm_compute; lia).
  assert (H2 : is_datetime (Run.t0 Sim.w_clean)) by (vm_compute; lia).
  assert (H3 : Run.cleanup_folder Sim.w_demo = Run.cleanup_folder Sim.w_clean)
    by reflexivity.
  split; [exact H1 |]. split; [exact H2 |]. split; [exact H3 |].
  exact (folder_name_tells_the_time Sim.w_demo Sim.w_clean H1 H2 H3).
Defined.

(** ** The paths under the cleanup folder *)

(** A relative path [p] goes to the path of the cleanup folder, a
    slash, and [p]; the log file is [cleanup_log.txt] right under the
    cleanup folder. *)
Theorem destination_is_under_the_folder :
  forall w root_dir p,
    Py.startswith_char Py.SLASH p = false ->
    posixpath.join (Run.cleanup_path w root_dir) p
    = Run.cleanup_path w root_dir ++ String Py.SLASH p
    /\ Run.log_file_path w root_dir
       = Run.cleanup_path w root_dir ++ "/cleanup_log.txt".
Proof.
  intros w root_dir p Hp.
  destruct (cleanup_path_shape w root_dir) as [Hne Hend].
  unfold Run.log_file_path, posixpath.join.
  rewrite Hp, Hne, Hend. cbn [orb Py.startswith_char log_file_name].
  split; reflexivity.
Qed.

Lemma destination_is_under_the_folder_witness :
  Py.startswith_char Py.SLASH "scratch/notes.txt" = false
  /\ posixpath.join (Run.cleanup_path Sim.w_demo ".") "scratch/notes.txt"
     = Run.cleanup_path Sim.w_demo "." ++ String Py.SLASH "scratch/notes.txt"
  /\ Run.log_file_path Sim.w_demo "."
     = Run.cleanup_path Sim.w_demo "." ++ "/cleanup_log.txt".
Proof.
  assert (H : Py.startswith_char Py.SLASH "scratch/notes.txt" = false) by reflexivity.
  split; [exact H |].
  exact (destination_is_under_the_folder Sim.w_demo "." "scratch/notes.txt" H).
Defined.

(** ** The directory made for a destination *)

(** The directory made before a move mirrors the directory of the file:
    for a file at the top of the tree it is the cleanup folder itself,
    and for a file [f] in the directory [d] it is [d] under the cleanup
    folder. *)
Theorem directory_of_the_destination :
  forall w root_dir d f,
    Py.contains_char Py.SLASH f = false ->
    posixpath.dirname (posixpath.join (Run.cleanup_path w root_dir) f)
    = Run.cleanup_path w root_dir
    /\ (d <> EmptyString ->
        Py.startswith_char Py.SLASH d = false ->
        Py.endswith_char Py.SLASH d = false ->
        posixpath.dirname
          (posixpath.join (Run.cleanup_path w root_dir) (d ++ String Py.SLASH f))
        = Run.cleanup_path w root_dir ++ String Py.SLASH d).
Proof.
  intros w root_dir d f Hf.
  destruct (cleanup_path_shape w root_dir) as [Hne Hend].
  assert (Hcp : Run.cleanup_path w root_dir <> EmptyString)
    by (intro H; rewrite H in Hne; discriminate).
  assert (Hjoin : forall p, Py.startswith_char Py.SLASH p = false ->
            posixpath.join (Run.cleanup_path w root_dir) p
            = Run.cleanup_path w root_dir ++ String Py.SLASH p).
  { intros p Hp. unfold posixpath.join. now rewrite Hp, Hne, Hend. }
  split.
  - rewrite (Hjoin f (no_slash_no_start f Hf)). now apply dirname_of_child.
  - intros Hd Hstart Hdend.
    assert (Hp : Py.startswith_char Py.SLASH (d ++ String Py.SLASH f) = false)
      by (destruct d; [contradiction | exact Hstart]).
    rewrite (Hjoin _ Hp).
    change (Run.cleanup_path w root_dir ++ String Py.SLASH (d ++ String Py.SLASH f))
      with (Run.cleanup_path w root_dir ++ (String Py.SLASH d ++ String Py.SLASH f)).
    rewrite <- str_app_assoc.
    apply dirname_of_child.
    + destruct (Run.cleanup_path w root_dir); discriminate.
    + rewrite endswith_app by discriminate.
      destruct d; [contradiction | exact Hdend].
    + exact Hf.
Qed.

Lemma directory_of_the_destination_witness :
  Py.contains_char Py.SLASH "notes.txt" = false
  /\ posixpath.dirname (posixpath.join (Run.cleanup_path Sim.w_demo ".") "notes.txt")
     = Run.cleanup_path Sim.w_demo "."
  /\ ("scratch/old" <> EmptyString ->
      Py.startswith_char Py.SLASH "scratch/old" = false ->
      Py.endswith_char Py.SLASH "scratch/old" = false ->
      posixpath.dirname
        (posixpath.join (Run.cleanup_path Sim.w_demo ".")
                        ("scratch/old" ++ String Py.SLASH "notes.txt"))
      = Run.cleanup_path Sim.w_demo "." ++ String Py.SLASH "scratch/old").
Proof.
  assert (H : Py.contains_char Py.SLASH "notes.txt" = false) by reflexivity.
  split; [exact H |].
  exact (directory_of_the_destination Sim.w_demo "." "scratch/old" "notes.txt" H).
Defined.

(** ** The foot of the log and its entries *)

(** In the log that a run writes, the number after [Total Files Found: ]
    is the number of the entries between the head and the foot, one per
    file found, and the number after [Total Files Successfully Moved: ]
    is the number of those entries that start with [  MOVED: ]. *)
Theorem foot_counts_the_moved_entries :
  forall w root_dir path content r,
    In (EvWrite path content r) (history (snd (Run.final w root_dir))) ->
    exists entries,
      let t := Run.t1 w root_dir in
      let t0 := Run.t0 w in
      content
      = Py.str_join Py.nl
        (List.app
        [ "--- Git Untracked File Cleanup Log ---";
        "Date/Time of Execution: "
        ++ Py.str_of_nat (year t) ++ "-" ++ zfill 2 (month t) ++ "-" ++ zfill 2 (day t)
        ++ " " ++ zfill 2 (hour t) ++ ":" ++ zfill 2 (minute t) ++ ":"
        ++ zfill 2 (second t);
        "Source Directory: " ++ abspath w (Run.h_loop w root_dir) root_dir;
        "Destination Directory: " ++ "cleanup_untracked_"
        ++ Py.str_of_nat (year t0) ++ "-" ++ zfill 2 (month t0) ++ "-"
        ++ zfill 2 (day t0) ++ "_" ++ zfill 2 (hour t0) ++ zfill 2 (minute t0)
        ++ zfill 2 (second t0);
        "Total Files Found: " ++ Py.str_of_nat (length entries) ++ Py.nl;
        "Files Moved (Original Path -> Cleanup Path):" ++ Py.nl ]
        (List.app (entries)
        [ Py.nl ++ "Total Files Successfully Moved: " ++ Py.str_of_nat (length (filter (String.prefix "  MOVED: ") entries));
        "--- End of Log ---" ]))
      /\ length entries = length (found w root_dir).
Proof.
  intros w root_dir path content r Hin. unfold found.
  destruct (final_shape w root_dir)
    as [e0 Hrev | e0 Hrev Hls | out err Hrev Hls Hnone | out err e0 Hrev Hls Hsome Hmk
        | out err evs lines e0 Hrev Hls Hsome Hmk Hrun
        | out err evs lines log k r0 Hrev Hls Hsome Hmk Hrun Hr];
    cbn [fst snd history console] in *.
  - apply h_check_pure in Hin. discriminate.
  - apply h_enum_pure in Hin. discriminate.
  - apply h_enum_pure in Hin. discriminate.
  - apply in_app_or in Hin. destruct Hin as [Hin | [Hin | []]].
    + apply h_enum_pure in Hin. discriminate.
    + discriminate.
  - apply in_app_or in Hin. destruct Hin as [Hin | Hin].
    + now apply h_loop_no_write in Hin.
    + apply (loop_run_events_kind _ _ _ _ _ _ _ _ _ Hrun) in Hin. contradiction.
  - apply in_app_or in Hin. destruct Hin as [Hin | Hin].
    { now apply h_loop_no_write in Hin. }
    apply in_app_or in Hin. destruct Hin as [Hin | [Hin | []]].
    { apply (loop_run_events_kind _ _ _ _ _ _ _ _ _ Hrun) in Hin. contradiction. }
    injection Hin as _ Hcontent _. rewrite Hls.
    destruct (loop_run_completed _ _ _ _ _ _ _ _ _ Hrun _ _ eq_refl)
      as (results & Hlen & _ & Hlog & Hk & _).
    cbn [plus] in Hk.
    exists (map (log_entry w) (combine (Run.untracked_files w root_dir out) results)).
    cbv zeta.
    assert (Hn : length (map (log_entry w)
                           (combine (Run.untracked_files w root_dir out) results))
                 = length (Run.untracked_files w root_dir out))
      by now rewrite length_map, length_combine, Hlen, Nat.min_id.
    split; [| exact Hn].
    rewrite moved_entries_counted, succeeded_of_combine, Hn, <- Hk by exact Hlen.
    rewrite <- Hcontent, Hlog, <- app_assoc. f_equal.
    unfold log_header, log_footer, Run.stamp, Run.source, Run.cleanup_folder.
    rewrite strftime_stamp, strftime_folder, !str_app_nil_r. reflexivity.
Qed.

Lemma foot_counts_the_moved_entries_witness :
  let st := snd (Run.final Sim.w_demo ".") in
  let content :=
    match last (history st) (EvNow Sim.noon) with
    | EvWrite _ c _ => c
    | _ => EmptyString
    end in
  In (EvWrite (Sim.folder ++ "/cleanup_log.txt") content None) (history st)
  /\ exists entries,
       let t := Run.t1 Sim.w_demo "." in
       let t0 := Run.t0 Sim.w_demo in
       content
       = Py.str_join Py.nl
         (List.app
         [ "--- Git Untracked File Cleanup Log ---";
         "Date/Time of Execution: "
         ++ Py.str_of_nat (year t) ++ "-" ++ zfill 2 (month t) ++ "-" ++ zfill 2 (day t)
         ++ " " ++ zfill 2 (hour t) ++ ":" ++ zfill 2 (minute t) ++ ":"
         ++ zfill 2 (second t);
         "Source Directory: " ++ abspath Sim.w_demo (Run.h_loop Sim.w_demo ".") ".";
         "Destination Directory: " ++ "cleanup_untracked_"
         ++ Py.str_of_nat (year t0) ++ "-" ++ zfill 2 (month t0) ++ "-"
         ++ zfill 2 (day t0) ++ "_" ++ zfill 2 (hour t0) ++ zfill 2 (minute t0)
         ++ zfill 2 (second t0);
         "Total Files Found: " ++ Py.str_of_nat (length entries) ++ Py.nl;
         "Files Moved (Original Path -> Cleanup Path):" ++ Py.nl ]
         (List.app (entries)
         [ Py.nl ++ "Total Files Successfully Moved: " ++ Py.str_of_nat (length (filter (String.prefix "  MOVED: ") entries));
         "--- End of Log ---" ]))
       /\ length entries = length (found Sim.w_demo ".").
Proof.
  cbv zeta.
  assert (H : In (EvWrite (Sim.folder ++ "/cleanup_log.txt")
                    match last (history (snd (Run.final Sim.w_demo "."))) (EvNow Sim.noon) with
                    | EvWrite _ c _ => c
                    | _ => EmptyString
                    end None)
                 (history (snd (Run.final Sim.w_demo ".")))).
  { vm_compute. do 9 right. left. reflexivity. }
  split; [exact H |].
  exact (foot_counts_the_moved_entries Sim.w_demo "." _ _ _ H).
Defined.

